(** * login_script.py: the ClawCloud login sequencer

    A shallow embedding of [src/login_script.py].  The script drives a
    headless browser; every answer of the browser (is this selector
    visible, what is [page.url], did [fill] raise) is an input of the
    model, supplied by a record of oracles indexed by the call site that
    asks.  Every call site of the script runs at most once per loop
    index, so such a record describes an arbitrary deterministic browser.
    What the script does to the outside (stdout lines, screenshots,
    sleeps, clicks, generated one-time codes) is collected in a trace. *)

From Stdlib Require Import String Ascii List ZArith QArith Qround Lia Bool Arith.
From Stdlib Require Import DecimalString Lqa.
Import ListNotations.

Local Open Scope string_scope.
Local Open Scope list_scope.

(** ** Python primitives used by the script *)

Module Py.

(** [needle in hay] on [str]. *)
Fixpoint str_in (needle hay : string) : bool :=
  String.prefix needle hay ||
  match hay with
  | EmptyString => false
  | String _ rest => str_in needle rest
  end.

(** [s.lower()], on the ASCII letters (URLs are ASCII). *)
Definition lower_ascii (c : ascii) : ascii :=
  let n := nat_of_ascii c in
  if (65 <=? n)%nat && (n <=? 90)%nat then ascii_of_nat (n + 32) else c.

Fixpoint lower (s : string) : string :=
  match s with
  | EmptyString => EmptyString
  | String c rest => String (lower_ascii c) (lower rest)
  end.

(** Truth value of an [Optional[str]]: [None] and [""] are falsy. *)
Definition truthy (v : option string) : bool :=
  match v with
  | None => false
  | Some EmptyString => false
  | Some _ => true
  end.

(** [str(n)] for a non-negative [int]. *)
Definition str_of_nat (n : nat) : string :=
  NilEmpty.string_of_uint (Nat.to_uint n).

(** [sep.join(parts)]. *)
Definition join (sep : string) (parts : list string) : string :=
  String.concat sep parts.

(** [s * n]. *)
Fixpoint repeat_str (s : string) (n : nat) : string :=
  match n with
  | O => EmptyString
  | S k => s ++ repeat_str s k
  end.

(** A [str] is held as the bytes of its UTF-8 encoding, and its
    characters are code points.  [os.environ] decodes with
    [surrogateescape]: a well-formed UTF-8 sequence is one code point, and
    a byte that starts none is one code point by itself. *)
Definition byte_in (lo hi : N) (b : option ascii) : bool :=
  match b with
  | Some c => ((lo <=? N_of_ascii c) && (N_of_ascii c <=? hi))%N
  | None => false
  end.

(** The second byte of a well-formed sequence of three or four bytes
    that starts with [lead]: the ranges that exclude over-long forms,
    surrogates and code points above U+10FFFF. *)
Definition second_byte (lead : ascii) (b : option ascii) : bool :=
  match N_of_ascii lead with
  | 224%N => byte_in 160 191 b
  | 237%N => byte_in 128 159 b
  | 240%N => byte_in 144 191 b
  | 244%N => byte_in 128 143 b
  | _ => byte_in 128 191 b
  end.

(** The number of bytes of the first code point of [s]. *)
Definition code_point_length (s : string) : nat :=
  match s with
  | EmptyString => 0
  | String lead rest =>
      let b1 := String.get 0 rest in
      let b2 := String.get 1 rest in
      let b3 := String.get 2 rest in
      if byte_in 194 223 (Some lead) && byte_in 128 191 b1 then 2
      else if byte_in 224 239 (Some lead) && second_byte lead b1 && byte_in 128 191 b2
      then 3
      else if byte_in 240 244 (Some lead) && second_byte lead b1 && byte_in 128 191 b2
              && byte_in 128 191 b3
      then 4
      else 1
  end.

(** [s[:n]]: the first [n] code points of [s]. *)
Fixpoint take (n : nat) (s : string) : string :=
  match n with
  | O => EmptyString
  | S k =>
      let width := code_point_length s in
      String.substring 0 width s ++
      take k (String.substring width (String.length s - width) s)
  end.

(** [x % m] on numbers, with the sign of the divisor: [x - m * floor (x / m)].
    Wall-clock time is a Python float; the model takes it as an exact
    rational. *)
Definition fmod (x m : Q) : Q := (x - m * inject_Z (Qfloor (x / m)))%Q.

Definition newline : string := String (ascii_of_nat 10) EmptyString.

End Py.

(** ** Exceptions, events and the trace monad *)

(** The [Exception] subclasses the script tells apart. *)
Inductive error : Type :=
| PlaywrightTimeout (msg : string)
| OtherError (msg : string).

Definition str_of_error (e : error) : string :=
  match e with
  | PlaywrightTimeout msg => msg
  | OtherError msg => msg
  end.

(** What can propagate: an [Exception], [KeyboardInterrupt], or the
    [SystemExit] raised by [sys.exit]. *)
Inductive exn : Type :=
| Exception (e : error)
| KeyboardInterrupt
| SystemExit (code : Z).

Inductive event : Type :=
| Stdout (line : string)            (* print(line) *)
| Stderr_traceback (e : error)      (* traceback.print_exc() *)
| Screenshot (path : string)        (* page.screenshot wrote path *)
| Sleep (secs : Q)                  (* time.sleep(secs) *)
| TotpNow (code : string)           (* pyotp.TOTP(secret).now() returned code *)
| Click (selector : string)
| Fill (selector text : string)
| Clear (selector : string)
| Press (selector key : string)
| Evaluate (script : string)
| Launch
| NewContext
| NewPage
| Goto (url : string)
| CloseBrowser.

Inductive result (A : Type) : Type :=
| Ret (a : A)
| Raise (e : exn).

Arguments Ret {A} a.
Arguments Raise {A} e.

Definition M (A : Type) : Type := (list event * result A)%type.

Definition ret {A} (a : A) : M A := ([], Ret a).

Definition bind {A B} (m : M A) (f : A -> M B) : M B :=
  let (trace, r) := m in
  match r with
  | Ret a => let (trace', r') := f a in (trace ++ trace', r')
  | Raise e => (trace, Raise e)
  end.

Definition emit (e : event) : M unit := ([e], Ret tt).

Definition raise {A} (e : exn) : M A := ([], Raise e).

(** An operation of the browser that either returns or raises. *)
Definition may_raise (o : option error) : M unit :=
  match o with
  | None => ret tt
  | Some e => raise (Exception e)
  end.

(** [try: m except ...]: the handler chosen for the exception, if one of
    the [except] clauses matches it. *)
Definition catch {A} (m : M A) (handler : exn -> option (M A)) : M A :=
  let (trace, r) := m in
  match r with
  | Ret a => (trace, Ret a)
  | Raise e =>
      match handler e with
      | Some (trace', r') => (trace ++ trace', r')
      | None => (trace, Raise e)
      end
  end.

(** [try: m except Exception as e: handler e] *)
Definition try_except {A} (m : M A) (handler : error -> M A) : M A :=
  catch m (fun e => match e with
                    | Exception err => Some (handler err)
                    | KeyboardInterrupt | SystemExit _ => None
                    end).

(** [try: m except PlaywrightTimeout: handler] *)
Definition try_except_timeout (m : M unit) (handler : M unit) : M unit :=
  catch m (fun e => match e with
                    | Exception (PlaywrightTimeout _) => Some handler
                    | _ => None
                    end).

(** [try: m finally: fin], for a [fin] that does not raise. *)
Definition try_finally {A} (m : M A) (fin : M unit) : M A :=
  let (trace, r) := m in (trace ++ fst fin, r).

Definition sys_exit {A} (code : Z) : M A := raise (SystemExit code).

Declare Scope py_scope.
Delimit Scope py_scope with py.
Notation "x <- m ;; k" := (bind m (fun x => k))
  (at level 61, m at next level, right associativity) : py_scope.
Notation "m ;; k" := (bind m (fun _ => k))
  (at level 61, right associativity) : py_scope.
Local Open Scope py_scope.

(** [for i in idx: body i] followed by [after]; the body yields [Some v]
    for [return v] and [None] when the iteration ends (by falling through
    or by [continue]). *)
Fixpoint for_each {I A} (idx : list I) (body : I -> M (option A)) (after : M A) : M A :=
  match idx with
  | [] => after
  | i :: rest =>
      r <- body i ;;
      match r with
      | Some v => ret v
      | None => for_each rest body after
      end
  end.

(** The exit status the shell sees. *)
Definition exit_status (r : result unit) : Z :=
  match r with
  | Ret _ => 0
  | Raise (SystemExit code) => code
  | Raise KeyboardInterrupt => 130
  | Raise (Exception _) => 1
  end.

(** ** Configuration *)

Definition CLAW_CLOUD_URL : string := "https://ap-northeast-1.run.claw.cloud/".
Definition MAX_2FA_RETRIES : nat := 3.
Definition WAIT_AFTER_2FA : nat := 5.
Definition FINAL_WAIT : nat := 25.

Definition seconds (n : nat) : Q := inject_Z (Z.of_nat n).

(** ** log_step *)

Inductive level : Type := INFO | SUCCESS | ERROR | WARN | STEP.

Definition icons (l : level) : string :=
  match l with
  | INFO => "ℹ️"
  | SUCCESS => "✅"
  | ERROR => "❌"
  | WARN => "⚠️"
  | STEP => "🔹"
  end.

Definition log_line (msg : string) (l : level) : string := icons l ++ " " ++ msg.

Definition log_step (msg : string) (l : level) : M unit :=
  emit (Stdout (log_line msg l)).

Definition print (line : string) : M unit := emit (Stdout line).

Definition sleep (secs : Q) : M unit := emit (Sleep secs).

(** ** safe_screenshot *)

(** [shot] is the outcome of [page.screenshot]: [Some e] when it raises. *)
Definition safe_screenshot (shot : option error) (filename description : string) : M bool :=
  match shot with
  | None =>
      emit (Screenshot filename) ;;
      log_step ("已保存截图: " ++ filename) SUCCESS ;;
      (if String.eqb description "" then ret tt
       else log_step ("  说明: " ++ description) INFO) ;;
      ret true
  | Some e =>
      log_step ("截图失败: " ++ str_of_error e) WARN ;;
      ret false
  end.

(** ** try_click *)

(** One round of [element = page.locator(selector).first;
    if element.is_visible(): element.click()] under a bare [except].
    The bare [except] catches every exception, [KeyboardInterrupt]
    included: [ProbeRaised] is also the answer of a lookup that a SIGINT
    cuts. *)
Inductive probe : Type :=
| NotVisible
| Clicked
| ProbeRaised.

Fixpoint try_click (page : string -> probe) (selectors : list string)
  (description : string) : M bool :=
  match selectors with
  | [] => log_step ("未找到: " ++ description) WARN ;; ret false
  | selector :: rest =>
      match page selector with
      | Clicked =>
          emit (Click selector) ;;
          log_step ("已点击: " ++ description ++ " (" ++ selector ++ ")") SUCCESS ;;
          ret true
      | NotVisible | ProbeRaised => try_click page rest description
      end
  end.

(** ** fill_github_credentials *)

Record CredentialsPage : Type := {
  (* page.wait_for_selector("#login_field", state="visible", timeout=10000) *)
  wait_login_field : option error;
  (* the four page.fill calls, in program order *)
  fill_raises : nat -> option error;
  cred_screenshot : string -> option error;
  cred_submit : string -> probe
}.

Definition credential_submit_selectors : list string :=
  [ "input[name='commit']";
    "input[type='submit']";
    "button[type='submit']";
    "button:has-text('Sign in')" ].

Definition page_fill (page : CredentialsPage) (k : nat) (selector text : string) : M unit :=
  may_raise (fill_raises page k) ;; emit (Fill selector text).

Definition fill_github_credentials (page : CredentialsPage) (username password : string)
  : M bool :=
  log_step "🔒 检测到 GitHub 登录页面" STEP ;;
  try_except
    (may_raise (wait_login_field page) ;;
     page_fill page 0 "#login_field" "" ;;
     page_fill page 1 "#login_field" username ;;
     log_step ("已填写用户名: " ++ Py.take 3 username ++ "***") INFO ;;
     page_fill page 2 "#password" "" ;;
     page_fill page 3 "#password" password ;;
     log_step "已填写密码: ********" INFO ;;
     safe_screenshot (cred_screenshot page "01_credentials_filled.png")
       "01_credentials_filled.png" "凭据已填写" ;;
     clicked <- try_click (cred_submit page) credential_submit_selectors "登录按钮" ;;
     if clicked then
       log_step "登录表单已提交" SUCCESS ;;
       ret true
     else
       log_step "找不到提交按钮" ERROR ;;
       safe_screenshot (cred_screenshot page "error_no_submit_button.png")
         "error_no_submit_button.png" "" ;;
       ret false)
    (fun e =>
       log_step ("填写凭据失败: " ++ str_of_error e) ERROR ;;
       safe_screenshot (cred_screenshot page "error_fill_credentials.png")
         "error_fill_credentials.png" "" ;;
       ret false).

(** ** handle_2fa_verification *)

(** One round of the inline-error scan: [error_elem.is_visible()] then
    [error_elem.inner_text()], the whole scan under one bare [except]. *)
Inductive banner : Type :=
| Hidden
| Shown (text : string)
| ScanRaised.

Record TwoFactorPage : Type := {
  tf_screenshot : nat -> string -> option error;
  (* pyotp.TOTP(secret).now() in attempt a: the code, or the exception *)
  totp_now : string -> nat -> string + error;
  (* page.locator(selector).first.is_visible(timeout=2000); None: it raises *)
  input_visible : nat -> string -> option bool;
  clear_raises : nat -> option error;
  code_fill_raises : nat -> option error;
  tf_submit : nat -> string -> probe;
  press_raises : nat -> option error;
  (* page.wait_for_load_state("networkidle", timeout=10000) *)
  tf_load_state : nat -> option error;
  (* page.url at the check after the submission of attempt a *)
  url_after_submit : nat -> string;
  error_banner : nat -> string -> banner;
  (* time.time() when attempt a computes its sleep *)
  time_time : nat -> Q
}.

Definition input_selectors : list string :=
  [ "#app_totp";
    "#otp";
    "#sms_otp";
    "input[name='otp']";
    "input[name='app_otp']";
    "input[autocomplete='one-time-code']";
    "input[type='text'][inputmode='numeric']";
    "input[aria-label*='code' i]";
    "input[placeholder*='code' i]";
    "input.form-control[type='text']" ].

Definition submit_selectors : list string :=
  [ "button[type='submit']";
    "input[type='submit']";
    "button:has-text('Verify')";
    "button:has-text('验证')";
    "button.btn-primary" ].

Definition error_selectors : list string :=
  [ ".flash-error"; ".js-flash-alert"; "[role='alert']" ].

(** The loop over [input_selectors]: the first selector whose element is
    visible; a selector that raises is skipped. *)
Fixpoint find_input (visible : string -> option bool) (selectors : list string)
  : option string :=
  match selectors with
  | [] => None
  | selector :: rest =>
      match visible selector with
      | Some true => Some selector
      | Some false | None => find_input visible rest
      end
  end.

(** The loop over [submit_selectors]; the result is [submit_clicked]. *)
Fixpoint click_submit (page : string -> probe) (selectors : list string) : M bool :=
  match selectors with
  | [] => ret false
  | selector :: rest =>
      match page selector with
      | Clicked =>
          emit (Click selector) ;;
          log_step ("已点击提交按钮: " ++ selector) SUCCESS ;;
          ret true
      | NotVisible | ProbeRaised => click_submit page rest
      end
  end.

Fixpoint scan_errors (page : string -> banner) (selectors : list string) : M unit :=
  match selectors with
  | [] => ret tt
  | err_sel :: rest =>
      match page err_sel with
      | Hidden => scan_errors page rest
      | Shown error_text => log_step ("错误提示: " ++ error_text) ERROR
      | ScanRaised => ret tt
      end
  end.

(** [32 - (time.time() % 30)] *)
Definition sleep_until_next_window (now : Q) : Q := (32 - Py.fmod now 30)%Q.

(** The test of line 224 on [page.url]. *)
Definition left_two_factor (current_url : string) : bool :=
  negb (Py.str_in "two-factor" current_url) &&
  negb (Py.str_in "sessions/two-factor" current_url).

(** The [try] block of one attempt, from [input_element.clear()] on. *)
Definition submit_code (page : TwoFactorPage) (attempt : nat) (selector code : string)
  : M (option bool) :=
  may_raise (clear_raises page attempt) ;;
  emit (Clear selector) ;;
  sleep (1 # 2) ;;
  may_raise (code_fill_raises page attempt) ;;
  emit (Fill selector code) ;;
  log_step ("已填入验证码: " ++ code) SUCCESS ;;
  sleep (1 # 2) ;;
  safe_screenshot
    (tf_screenshot page attempt ("03_2fa_code_entered_" ++ Py.str_of_nat (attempt + 1) ++ ".png"))
    ("03_2fa_code_entered_" ++ Py.str_of_nat (attempt + 1) ++ ".png")
    ("验证码已输入 (尝试" ++ Py.str_of_nat (attempt + 1) ++ ")") ;;
  submit_clicked <- click_submit (tf_submit page attempt) submit_selectors ;;
  (if submit_clicked then ret tt
   else
     log_step "未找到提交按钮，尝试按回车键" WARN ;;
     may_raise (press_raises page attempt) ;;
     emit (Press selector "Enter") ;;
     log_step "已按回车键提交" SUCCESS) ;;
  log_step ("等待 " ++ Py.str_of_nat WAIT_AFTER_2FA ++ " 秒，检查验证结果...") INFO ;;
  sleep (seconds WAIT_AFTER_2FA) ;;
  try_except_timeout
    (may_raise (tf_load_state page attempt))
    (log_step "页面加载超时，继续检查..." WARN) ;;
  let current_url := url_after_submit page attempt in
  log_step ("当前 URL: " ++ current_url) INFO ;;
  if left_two_factor current_url then
    log_step "2FA 验证成功！" SUCCESS ;;
    safe_screenshot (tf_screenshot page attempt "04_2fa_success.png")
      "04_2fa_success.png" "2FA 验证成功" ;;
    ret (Some true)
  else
    scan_errors (error_banner page attempt) error_selectors ;;
    log_step ("验证码 " ++ code ++ " 验证失败，可能已过期") WARN ;;
    (if (attempt <? MAX_2FA_RETRIES - 1)%nat then
       log_step "等待新验证码生成（30秒周期）..." INFO ;;
       sleep (sleep_until_next_window (time_time page attempt))
     else ret tt) ;;
    ret None.

(** The body of [for attempt in range(MAX_2FA_RETRIES)]. *)
Definition attempt_2fa (page : TwoFactorPage) (totp_secret : string) (attempt : nat)
  : M (option bool) :=
  log_step ("🔢 尝试 " ++ Py.str_of_nat (attempt + 1) ++ "/"
            ++ Py.str_of_nat MAX_2FA_RETRIES ++ "...") STEP ;;
  match totp_now page totp_secret attempt with
  | inr e =>
      log_step ("生成验证码失败: " ++ str_of_error e) ERROR ;;
      ret (Some false)
  | inl code =>
      emit (TotpNow code) ;;
      log_step ("生成验证码: " ++ code) SUCCESS ;;
      match find_input (input_visible page attempt) input_selectors with
      | Some used_selector =>
          log_step ("找到输入框: " ++ used_selector) SUCCESS ;;
          try_except
            (submit_code page attempt used_selector code)
            (fun e =>
               log_step ("填写验证码异常: " ++ str_of_error e) ERROR ;;
               safe_screenshot
                 (tf_screenshot page attempt
                    ("error_2fa_fill_" ++ Py.str_of_nat (attempt + 1) ++ ".png"))
                 ("error_2fa_fill_" ++ Py.str_of_nat (attempt + 1) ++ ".png") "" ;;
               (if (attempt <? MAX_2FA_RETRIES - 1)%nat then sleep 3 else ret tt) ;;
               ret None)
      | None =>
          log_step "未找到任何 2FA 输入框" ERROR ;;
          safe_screenshot (tf_screenshot page attempt "error_no_2fa_input.png")
            "error_no_2fa_input.png" "" ;;
          log_step "等待页面完全加载..." WARN ;;
          sleep 3 ;;
          if (attempt =? MAX_2FA_RETRIES - 1)%nat then ret (Some false) else ret None
      end
  end.

(** What the function does before the retry loop. *)
Definition prelude_2fa (page : TwoFactorPage) : M bool :=
  log_step "🔐 检测到 2FA 双重验证" STEP ;;
  safe_screenshot (tf_screenshot page 0 "02_2fa_page.png") "02_2fa_page.png" "2FA 验证页面".

(** The branch of [if not totp_secret]. *)
Definition missing_secret : M bool :=
  log_step "未配置 GH_2FA_SECRET，无法自动填写验证码" ERROR ;;
  log_step "请在 GitHub Secrets 中添加 GH_2FA_SECRET" ERROR ;;
  ret false.

Definition retries_exhausted : M bool :=
  log_step ("2FA 验证失败（已尝试 " ++ Py.str_of_nat MAX_2FA_RETRIES ++ " 次）") ERROR ;;
  ret false.

Definition handle_2fa_verification (page : TwoFactorPage) (totp_secret : option string)
  : M bool :=
  prelude_2fa page ;;
  match totp_secret with
  | None | Some EmptyString => missing_secret
  | Some secret =>
      for_each (seq 0 MAX_2FA_RETRIES) (attempt_2fa page secret) retries_exhausted
  end.

(** ** handle_device_verification *)

Record DevicePage : Type := {
  dv_screenshot : string -> option error;
  (* page.url once the function has slept that many seconds; reading the
     property does no I/O and is taken not to raise *)
  url_at_second : nat -> string;
  (* page.evaluate("() => {}") in iteration i *)
  evaluate_raises : nat -> option error
}.

(** The test of lines 284 and 296 on [page.url]. *)
Definition left_device_page (current_url : string) : bool :=
  negb (Py.str_in "verified-device" current_url) &&
  negb (Py.str_in "device-verification" current_url).

(** The body of [for i in range(60)]. *)
Definition poll_device (page : DevicePage) (i : nat) : M (option bool) :=
  sleep 1 ;;
  if (i mod 10 =? 0)%nat then
    log_step ("  等待中... (" ++ Py.str_of_nat i ++ "/60 秒)") INFO ;;
    let current_url := url_at_second page (i + 1) in
    if left_device_page current_url then
      log_step "设备验证完成！" SUCCESS ;;
      ret (Some true)
    else
      match evaluate_raises page i with
      | None => emit (Evaluate "() => {}") ;; ret None
      | Some _ => ret None
      end
  else ret None.

Definition handle_device_verification (page : DevicePage) : M bool :=
  log_step "📧 检测到设备验证请求" WARN ;;
  safe_screenshot (dv_screenshot page "device_verification.png")
    "device_verification.png" "设备验证页面" ;;
  log_step "请在 60 秒内完成以下操作之一:" WARN ;;
  log_step "  1. 检查邮箱并点击验证链接" INFO ;;
  log_step "  2. 在 GitHub App 中批准设备" INFO ;;
  log_step "  3. 访问 https://github.com/settings/security" INFO ;;
  for_each (seq 0 60) (poll_device page)
    (let final_url := url_at_second page 60 in
     if left_device_page final_url then
       log_step "设备验证完成！" SUCCESS ;;
       ret true
     else
       log_step "设备验证超时" ERROR ;;
       ret false).

(** ** handle_oauth_authorization *)

Record OAuthPage : Type := {
  oa_screenshot : string -> option error;
  authorize : string -> probe
}.

Definition authorize_selectors : list string :=
  [ "button[name='authorize']";
    "button:has-text('Authorize')";
    "input[name='authorize']";
    "button.btn-primary:has-text('Authorize')" ].

Definition handle_oauth_authorization (page : OAuthPage) : M bool :=
  log_step "🔓 检测到授权请求页面" STEP ;;
  safe_screenshot (oa_screenshot page "05_oauth_authorize.png")
    "05_oauth_authorize.png" "OAuth 授权" ;;
  clicked <- try_click (authorize page) authorize_selectors "Authorize 按钮" ;;
  if clicked then
    log_step "已点击授权" SUCCESS ;;
    sleep 3 ;;
    ret true
  else
    log_step "未找到授权按钮，可能自动跳过" WARN ;;
    ret false.

(** ** verify_login_success *)

Record FinalPage : Type := {
  final_url : string;
  (* page.get_by_text(text).count(); None: it raises *)
  text_count : string -> option nat;
  (* page.locator(selector).count(); None: it raises *)
  locator_count : string -> option nat
}.

Definition page_text_checks : list (string * string) :=
  [ ("App Launchpad", "应用启动台");
    ("Devbox", "开发环境");
    ("Dashboard", "控制台");
    ("Create", "创建按钮");
    ("Workspace", "工作空间") ].

Definition user_menu_selectors : list string :=
  [ "[data-testid='user-menu']";
    "button[aria-label*='user' i]";
    ".user-avatar";
    "[class*='avatar']" ].

(** Check 3: each text is tried under its own bare [except]; the first
    hit appends one indicator and leaves the loop. *)
Fixpoint check_page_text (page : FinalPage) (checks : list (string * string))
  (success_indicators : list string) : list string :=
  match checks with
  | [] => success_indicators
  | (text, description) :: rest =>
      match text_count page text with
      | Some n =>
          if (0 <? n)%nat
          then success_indicators ++ [("找到'" ++ description ++ "'")%string]
          else check_page_text page rest success_indicators
      | None => check_page_text page rest success_indicators
      end
  end.

(** Check 4: one bare [except] around the whole loop, so a selector that
    raises ends the check. *)
Fixpoint check_user_menu (page : FinalPage) (selectors : list string)
  (success_indicators : list string) : list string :=
  match selectors with
  | [] => success_indicators
  | selector :: rest =>
      match locator_count page selector with
      | Some n =>
          if (0 <? n)%nat
          then success_indicators ++ ["找到用户菜单"]
          else check_user_menu page rest success_indicators
      | None => success_indicators
      end
  end.

(** The list [success_indicators] when the function reaches its tally. *)
Definition success_indicators (page : FinalPage) : list string :=
  let final_url := final_url page in
  let indicators := [] in
  let indicators :=
    if Py.str_in "claw.cloud" final_url && negb (Py.str_in "signin" final_url)
    then indicators ++ ["URL 正确"] else indicators in
  let indicators :=
    if negb (Py.str_in "github.com" final_url)
    then indicators ++ ["已离开 GitHub"] else indicators in
  let indicators := check_page_text page page_text_checks indicators in
  check_user_menu page user_menu_selectors indicators.

Definition verify_login_success (page : FinalPage) : M bool :=
  log_step "🔍 验证登录状态..." STEP ;;
  log_step ("最终 URL: " ++ final_url page) INFO ;;
  let indicators := success_indicators page in
  log_step ("成功指标: " ++
            match indicators with
            | [] => "无"
            | _ => Py.join ", " indicators
            end) INFO ;;
  let is_success := (2 <=? List.length indicators)%nat in
  ret is_success.

(** ** run_login *)

(** [os.environ.get] of the three variables. *)
Record Environ : Type := {
  GH_USERNAME : option string;
  GH_PASSWORD : option string;
  GH_2FA_SECRET : option string
}.

(** A blocking call of [run_login] itself: it returns, raises an
    [Exception], or is cut by SIGINT ([KeyboardInterrupt]).  Inside the
    helper functions above, a SIGINT that arrives in a lookup under a
    bare [except] is caught there, and is the answer "raised" of that
    lookup ([ProbeRaised], [None], [ScanRaised]); a SIGINT at another
    point of a helper is not modelled. *)
Inductive outcome : Type :=
| Done
| Fails (e : error)
| Interrupted.

Record World : Type := {
  (* page.goto(CLAW_CLOUD_URL, timeout=60000) *)
  goto_outcome : outcome;
  (* the k-th page.wait_for_load_state("networkidle") of run_login *)
  load_outcome : nat -> outcome;
  (* whether SIGINT arrives during the k-th time.sleep of run_login *)
  sleep_interrupted : nat -> bool;
  run_screenshot : string -> option error;
  github_button : string -> probe;
  (* page.url at line 448, 460, 472, 480 and 488 *)
  url_no_button : string;
  url_after_click : string;
  url_after_login : string;
  url_after_device : string;
  url_after_2fa : string;
  credentials_page : CredentialsPage;
  device_page : DevicePage;
  two_factor_page : TwoFactorPage;
  oauth_page : OAuthPage;
  final_page : FinalPage
}.

Definition blocking (o : outcome) : M unit :=
  match o with
  | Done => ret tt
  | Fails e => raise (Exception e)
  | Interrupted => raise KeyboardInterrupt
  end.

Definition wait_for_load_state (w : World) (k : nat) : M unit :=
  blocking (load_outcome w k).

Definition time_sleep (w : World) (k : nat) (secs : Q) : M unit :=
  if sleep_interrupted w k then raise KeyboardInterrupt else sleep secs.

Definition github_button_selectors : list string :=
  [ "button:has-text('GitHub')";
    "a:has-text('GitHub')";
    "[data-provider='github']";
    "button[data-test='github-login']";
    ".github-login-button" ].

Definition rule : string := Py.repeat_str "=" 60.

Definition banner_lines : M unit :=
  print (Py.newline ++ rule) ;;
  print "🚀 ClawCloud 自动登录脚本 (优化版 v2.0)" ;;
  print (rule ++ Py.newline).

Definition config_check (env : Environ) : M unit :=
  log_step "配置检查:" STEP ;;
  log_step
    (match GH_USERNAME env with
     | Some (String _ _ as username) => "  用户名: " ++ Py.take 3 username ++ "*** (已设置)"
     | _ => "  用户名: 未设置 ❌"
     end) INFO ;;
  log_step
    (if Py.truthy (GH_PASSWORD env) then "  密码: ******** (已设置)"
     else "  密码: 未设置 ❌") INFO ;;
  log_step
    ("  2FA Secret: " ++
     (if Py.truthy (GH_2FA_SECRET env) then "已设置 ✅" else "未设置 ⚠️")) INFO.

(** # 3. *)
Definition step3_visit (w : World) : M unit :=
  log_step ("访问 ClawCloud: " ++ CLAW_CLOUD_URL) STEP ;;
  blocking (goto_outcome w) ;;
  emit (Goto CLAW_CLOUD_URL) ;;
  wait_for_load_state w 0 ;;
  time_sleep w 0 2 ;;
  safe_screenshot (run_screenshot w "00_clawcloud_home.png")
    "00_clawcloud_home.png" "ClawCloud 首页" ;;
  ret tt.

(** # 4. *)
Definition step4_github_button (w : World) : M unit :=
  log_step "查找 GitHub 登录按钮..." STEP ;;
  clicked <- try_click (github_button w) github_button_selectors "GitHub 登录按钮" ;;
  if clicked then ret tt
  else if negb (Py.str_in "signin" (Py.lower (url_no_button w))) then
    log_step "可能已经登录，跳过 GitHub 按钮" WARN
  else
    log_step "找不到 GitHub 登录按钮" ERROR ;;
    safe_screenshot (run_screenshot w "error_no_github_button.png")
      "error_no_github_button.png" "" ;;
    sys_exit 1.

(** # 5. *)
Definition step5_wait_github (w : World) : M string :=
  log_step "等待跳转到 GitHub..." STEP ;;
  time_sleep w 1 3 ;;
  wait_for_load_state w 1 ;;
  let current_url := url_after_click w in
  log_step ("当前 URL: " ++ current_url) INFO ;;
  ret current_url.

Definition on_login_form (current_url : string) : bool :=
  Py.str_in "github.com/login" current_url || Py.str_in "github.com/session" current_url.

(** # 6. *)
Definition step6_github_login (w : World) (username password current_url : string)
  : M string :=
  if on_login_form current_url then
    ok <- fill_github_credentials (credentials_page w) username password ;;
    (if ok then ret tt
     else
       log_step "GitHub 登录失败" ERROR ;;
       sys_exit 1) ;;
    time_sleep w 2 3 ;;
    wait_for_load_state w 2 ;;
    let current_url := url_after_login w in
    log_step ("登录后 URL: " ++ current_url) INFO ;;
    ret current_url
  else ret current_url.

Definition on_device_page (current_url : string) : bool :=
  Py.str_in "verified-device" current_url || Py.str_in "device-verification" current_url.

(** # 7. *)
Definition step7_device (w : World) (current_url : string) : M string :=
  if on_device_page current_url then
    ok <- handle_device_verification (device_page w) ;;
    (if ok then ret tt
     else
       log_step "设备验证失败" ERROR ;;
       sys_exit 1) ;;
    ret (url_after_device w)
  else ret current_url.

Definition on_two_factor_page (current_url : string) : bool :=
  Py.str_in "two-factor" current_url || Py.str_in "sessions/two-factor" current_url.

(** # 8. *)
Definition step8_two_factor (w : World) (totp_secret : option string)
  (current_url : string) : M string :=
  if on_two_factor_page current_url then
    ok <- handle_2fa_verification (two_factor_page w) totp_secret ;;
    (if ok then ret tt
     else
       log_step "2FA 验证失败" ERROR ;;
       safe_screenshot (run_screenshot w "final_error_2fa.png") "final_error_2fa.png" "" ;;
       sys_exit 1) ;;
    ret (url_after_2fa w)
  else ret current_url.

(** # 9. *)
Definition step9_oauth (w : World) (current_url : string) : M unit :=
  time_sleep w 3 2 ;;
  if Py.str_in "github.com/login/oauth/authorize" current_url then
    handle_oauth_authorization (oauth_page w) ;;
    time_sleep w 4 3 ;;
    wait_for_load_state w 3
  else ret tt.

(** # 10. *)
Definition step10_final_wait (w : World) : M unit :=
  log_step ("等待最终跳转 (" ++ Py.str_of_nat FINAL_WAIT ++ " 秒)...") STEP ;;
  time_sleep w 5 (seconds FINAL_WAIT) ;;
  try_except_timeout
    (wait_for_load_state w 4)
    (log_step "页面加载超时，继续验证..." WARN).

(** # 11. *)
Definition step11_verify (w : World) : M unit :=
  safe_screenshot (run_screenshot w "99_final_result.png")
    "99_final_result.png" "最终登录结果" ;;
  ok <- verify_login_success (final_page w) ;;
  if ok then
    log_step rule SUCCESS ;;
    log_step "🎉 登录成功！" SUCCESS ;;
    log_step rule SUCCESS ;;
    print ""
  else
    log_step rule ERROR ;;
    log_step "登录失败或无法确认" ERROR ;;
    log_step "请下载截图查看详情" ERROR ;;
    log_step rule ERROR ;;
    sys_exit 1.

(** Steps 3 to 5: what runs before the first branch on [current_url]. *)
Definition reach_github (w : World) : M string :=
  step3_visit w ;;
  step4_github_button w ;;
  step5_wait_github w.

(** The body of the [try] statement. *)
Definition login_flow (w : World) (username password : string)
  (totp_secret : option string) : M unit :=
  current_url <- reach_github w ;;
  current_url <- step6_github_login w username password current_url ;;
  current_url <- step7_device w current_url ;;
  current_url <- step8_two_factor w totp_secret current_url ;;
  step9_oauth w current_url ;;
  step10_final_wait w ;;
  step11_verify w.

(** [except KeyboardInterrupt] and [except Exception as e]; a
    [SystemExit] passes through both. *)
Definition with_handlers (w : World) (m : M unit) : M unit :=
  catch m (fun e =>
    match e with
    | KeyboardInterrupt =>
        Some (log_step "用户中断" WARN ;;
              sys_exit 130)
    | Exception e =>
        Some (log_step ("发生异常: " ++ str_of_error e) ERROR ;;
              safe_screenshot (run_screenshot w "exception_error.png")
                "exception_error.png" "" ;;
              print (Py.newline ++ rule) ;;
              print "详细错误信息:" ;;
              print rule ;;
              emit (Stderr_traceback e) ;;
              print (rule ++ Py.newline) ;;
              sys_exit 1)
    | SystemExit _ => None
    end).

(** The run of a browser that starts and closes without failure: lines
    411-426 and [browser.close()] complete.  [run_login_session] below
    is the function with a browser that can fail there. *)
Definition run_login (env : Environ) (w : World) : M unit :=
  banner_lines ;;
  config_check env ;;
  match GH_USERNAME env, GH_PASSWORD env with
  | Some (String _ _ as username), Some (String _ _ as password) =>
      print "" ;;
      log_step "启动浏览器..." STEP ;;
      emit Launch ;;
      emit NewContext ;;
      emit NewPage ;;
      try_finally
        (with_handlers w (login_flow w username password (GH_2FA_SECRET env)))
        (emit CloseBrowser)
  | _, _ =>
      (* if not username or not password *)
      log_step "错误: 必须设置 GH_USERNAME 和 GH_PASSWORD 环境变量" ERROR ;;
      log_step "请在 GitHub Secrets 中配置这些值" ERROR ;;
      sys_exit 1
  end.

(** ** Observations on traces *)

Section Observation.

Context {X : Type} (view : event -> list X).

(** What a trace shows through [view]. *)
Definition observed (trace : list event) : list X := flat_map view trace.

(** The weakest precondition of [m]: [K] holds of what its trace shows
    and of its result. *)
Definition wp {A} (m : M A) (K : list X -> result A -> Prop) : Prop :=
  K (observed (fst m)) (snd m).

(** A view that sees nothing but sleeps and generated codes. *)
Definition blind : Prop :=
  forall e, match e with
            | Sleep _ | TotpNow _ => True
            | _ => view e = []
            end.

End Observation.

(** The one-time codes generated, in order. *)
Definition code_of (e : event) : list string :=
  match e with
  | TotpNow code => [code]
  | _ => []
  end.

Definition codes : list event -> list string := observed code_of.

(** The durations slept, in order. *)
Definition sleep_of (e : event) : list Q :=
  match e with
  | Sleep secs => [secs]
  | _ => []
  end.

Definition slept : list event -> list Q := observed sleep_of.

(** The lines printed, in order. *)
Definition line_of (e : event) : list string :=
  match e with
  | Stdout line => [line]
  | _ => []
  end.

Definition stdout : list event -> list string := observed line_of.

(** What the run did with a browser: everything but printing and sleeping
    and code generation. *)
Definition browser_use (e : event) : list event :=
  match e with
  | Stdout _ | Stderr_traceback _ | Sleep _ | TotpNow _ => []
  | _ => [e]
  end.

Definition browser_events : list event -> list event := observed browser_use.

(** The result of a computation that returns. *)
Definition returns {A} (m : M A) (a : A) : Prop := snd m = Ret a.

(** ** The four signals of the success heuristic *)

Definition signal_target_url (page : FinalPage) : bool :=
  Py.str_in "claw.cloud" (final_url page) && negb (Py.str_in "signin" (final_url page)).

Definition signal_left_provider (page : FinalPage) : bool :=
  negb (Py.str_in "github.com" (final_url page)).

Definition found (count : option nat) : bool :=
  match count with
  | Some n => (0 <? n)%nat
  | None => false
  end.

(** A landmark phrase is on the page; a phrase whose lookup raises counts
    as absent. *)
Definition signal_landmark (page : FinalPage) : bool :=
  existsb (fun check => found (text_count page (fst check))) page_text_checks.

(** A user-menu selector matches, and no selector before it raised. *)
Fixpoint first_match (counts : list (option nat)) : bool :=
  match counts with
  | [] => false
  | None :: _ => false
  | Some n :: rest => (0 <? n)%nat || first_match rest
  end.

Definition signal_user_menu (page : FinalPage) : bool :=
  first_match (map (locator_count page) user_menu_selectors).

Definition tally (page : FinalPage) : nat :=
  Nat.b2n (signal_target_url page) + Nat.b2n (signal_left_provider page) +
  Nat.b2n (signal_landmark page) + Nat.b2n (signal_user_menu page).

(** ** Conditions on the two-factor page *)

(** The location matches the two-factor pattern at every check. *)
Definition stays_on_two_factor (page : TwoFactorPage) : Prop :=
  forall attempt, left_two_factor (url_after_submit page attempt) = false.

Definition is_clicked (p : probe) : bool :=
  match p with
  | Clicked => true
  | NotVisible | ProbeRaised => false
  end.

(** Attempt [attempt] gets as far as its check of [page.url]: an input
    field is visible, clearing and filling it work, the code is submitted
    by a click or by Enter, and waiting for the network raises at most a
    timeout. *)
Definition reaches_check (page : TwoFactorPage) (attempt : nat) : Prop :=
  find_input (input_visible page attempt) input_selectors <> None /\
  clear_raises page attempt = None /\
  code_fill_raises page attempt = None /\
  (existsb (fun selector => is_clicked (tf_submit page attempt selector)) submit_selectors
     = true \/ press_raises page attempt = None) /\
  (forall msg, tf_load_state page attempt <> Some (OtherError msg)).

(** The range the specification gives for the sleep between two failed
    attempts: from just under one second to just under 32 seconds. *)
Definition sleeps_from_under_1_to_under_32 : Prop :=
  (exists now, 0 <= now /\ sleep_until_next_window now < 1)%Q /\
  (forall now, 0 <= now -> sleep_until_next_window now < 32)%Q.

(** ** Conditions on the device-verification page *)

(** The elapsed seconds at which the function reads [page.url]. *)
Definition check_seconds : list nat := [1; 11; 21; 31; 41; 51; 60]%nat.

(** ** Conditions on the credential form *)

Definition no_error (o : option error) : bool :=
  match o with
  | None => true
  | Some _ => false
  end.

Definition credentials_accepted (page : CredentialsPage) : bool :=
  no_error (wait_login_field page) &&
  forallb (fun k => no_error (fill_raises page k)) (seq 0 4) &&
  existsb (fun selector => is_clicked (cred_submit page selector)) credential_submit_selectors.

(** What [run_login] does before the [try] statement, credentials given. *)
Definition startup (env : Environ) : M unit :=
  banner_lines ;;
  config_check env ;;
  print "" ;;
  log_step "启动浏览器..." STEP ;;
  emit Launch ;;
  emit NewContext ;;
  emit NewPage.

(** ** The failure taxonomy *)


(** ** Sample pages *)

Definition no_shot : string -> option error := fun _ => None.

(** A two-factor page that rejects every code. *)
Definition rejecting_page : TwoFactorPage := {|
  tf_screenshot := fun _ _ => None;
  totp_now := fun _ attempt => inl ("00000" ++ Py.str_of_nat attempt)%string;
  input_visible := fun _ selector => Some (String.eqb selector "#otp");
  clear_raises := fun _ => None;
  code_fill_raises := fun _ => None;
  tf_submit := fun _ _ => NotVisible;
  press_raises := fun _ => None;
  tf_load_state := fun _ => Some (PlaywrightTimeout "Timeout 10000ms exceeded.");
  url_after_submit := fun _ => "https://github.com/sessions/two-factor/app";
  error_banner := fun _ _ => Shown "Two-factor authentication failed.";
  time_time := fun _ => 1700000007%Q
|}.

(** The same page under a secret that pyotp cannot decode. *)
Definition undecodable_page : TwoFactorPage := {|
  tf_screenshot := tf_screenshot rejecting_page;
  totp_now := fun _ _ => inr (OtherError "Non-base32 digit found");
  input_visible := input_visible rejecting_page;
  clear_raises := clear_raises rejecting_page;
  code_fill_raises := code_fill_raises rejecting_page;
  tf_submit := tf_submit rejecting_page;
  press_raises := press_raises rejecting_page;
  tf_load_state := tf_load_state rejecting_page;
  url_after_submit := url_after_submit rejecting_page;
  error_banner := error_banner rejecting_page;
  time_time := time_time rejecting_page
|}.

(** A two-factor page that accepts the code of the second attempt. *)
Definition second_try_page : TwoFactorPage := {|
  tf_screenshot := tf_screenshot rejecting_page;
  totp_now := totp_now rejecting_page;
  input_visible := input_visible rejecting_page;
  clear_raises := clear_raises rejecting_page;
  code_fill_raises := code_fill_raises rejecting_page;
  tf_submit := fun _ selector => if String.eqb selector "button[type='submit']"
                                 then Clicked else NotVisible;
  press_raises := press_raises rejecting_page;
  tf_load_state := fun _ => None;
  url_after_submit := fun attempt =>
    if (attempt <? 1)%nat then "https://github.com/sessions/two-factor/app"
    else "https://github.com/login/oauth/authorize?client_id=x";
  error_banner := fun _ _ => Hidden;
  time_time := time_time rejecting_page
|}.

(** A device-verification page approved after 45 seconds. *)
Definition approved_at_45 : DevicePage := {|
  dv_screenshot := no_shot;
  url_at_second := fun s =>
    if (s <? 45)%nat then "https://github.com/sessions/verified-device"
    else "https://ap-northeast-1.run.claw.cloud/";
  evaluate_raises := fun _ => None
|}.

(** A console page showing two signals: the target URL and not the
    provider's. *)
Definition console_page : FinalPage := {|
  final_url := "https://ap-northeast-1.run.claw.cloud/";
  text_count := fun _ => Some 0%nat;
  locator_count := fun _ => Some 0%nat
|}.

(** A page showing one signal only: neither host, nothing found. *)
Definition blank_page : FinalPage := {|
  final_url := "about:blank";
  text_count := fun _ => Some 0%nat;
  locator_count := fun _ => Some 0%nat
|}.

(** A credential form whose username field never shows up. *)
Definition no_login_field : CredentialsPage := {|
  wait_login_field := Some (PlaywrightTimeout "Timeout 10000ms exceeded.");
  fill_raises := fun _ => None;
  cred_screenshot := no_shot;
  cred_submit := fun _ => Clicked
|}.

Definition sample_oauth : OAuthPage := {|
  oa_screenshot := no_shot;
  authorize := fun _ => NotVisible
|}.

(** A run that meets the GitHub login form and cannot use it. *)
Definition stuck_at_login : World := {|
  goto_outcome := Done;
  load_outcome := fun _ => Done;
  sleep_interrupted := fun _ => false;
  run_screenshot := no_shot;
  github_button := fun selector =>
    if String.eqb selector "button:has-text('GitHub')" then Clicked else NotVisible;
  url_no_button := "https://ap-northeast-1.run.claw.cloud/signin";
  url_after_click := "https://github.com/login?client_id=x";
  url_after_login := "https://github.com/sessions/two-factor/app";
  url_after_device := "https://github.com/sessions/two-factor/app";
  url_after_2fa := "https://ap-northeast-1.run.claw.cloud/";
  credentials_page := no_login_field;
  device_page := approved_at_45;
  two_factor_page := rejecting_page;
  oauth_page := sample_oauth;
  final_page := blank_page
|}.

(** A run that is already signed in at the provider and ends on a page
    the heuristic does not recognise. *)
Definition unconfirmed_world : World := {|
  goto_outcome := Done;
  load_outcome := fun _ => Done;
  sleep_interrupted := fun _ => false;
  run_screenshot := no_shot;
  github_button := github_button stuck_at_login;
  url_no_button := url_no_button stuck_at_login;
  url_after_click := "about:blank";
  url_after_login := "about:blank";
  url_after_device := "about:blank";
  url_after_2fa := "about:blank";
  credentials_page := no_login_field;
  device_page := approved_at_45;
  two_factor_page := rejecting_page;
  oauth_page := sample_oauth;
  final_page := blank_page
|}.

Definition no_credentials : Environ := {|
  GH_USERNAME := None;
  GH_PASSWORD := Some "hunter2";
  GH_2FA_SECRET := None
|}.

Definition some_credentials : Environ := {|
  GH_USERNAME := Some "octocat";
  GH_PASSWORD := Some "hunter2";
  GH_2FA_SECRET := Some "JBSWY3DPEHPK3PXP"
|}.

(** Iteration [i] ends the wait: it is one of the iterations that look
    at [page.url], and the location has left the device page. *)
Definition hit (page : DevicePage) (i : nat) : bool :=
  (i mod 10 =? 0)%nat && left_device_page (url_at_second page (i + 1)).

(** A device-verification page nobody approves. *)
Definition never_approved : DevicePage := {|
  dv_screenshot := no_shot;
  url_at_second := fun _ => "https://github.com/sessions/verified-device";
  evaluate_raises := fun _ => None
|}.

(** A run whose login lands on that page. *)
Definition stuck_at_device : World := {|
  goto_outcome := Done;
  load_outcome := fun _ => Done;
  sleep_interrupted := fun _ => false;
  run_screenshot := no_shot;
  github_button := github_button stuck_at_login;
  url_no_button := url_no_button stuck_at_login;
  url_after_click := "https://github.com/sessions/verified-device";
  url_after_login := "https://github.com/sessions/verified-device";
  url_after_device := "https://github.com/sessions/verified-device";
  url_after_2fa := "about:blank";
  credentials_page := no_login_field;
  device_page := never_approved;
  two_factor_page := rejecting_page;
  oauth_page := sample_oauth;
  final_page := blank_page
|}.

(** ** Diagnostics of the two-factor sub-protocol *)

(** The line printed when the secret is missing. *)
Definition missing_secret_line : string :=
  log_line "未配置 GH_2FA_SECRET，无法自动填写验证码" ERROR.

(** The line that opens attempt [attempt]. *)
Definition attempt_line (attempt : nat) : string :=
  log_line ("🔢 尝试 " ++ Py.str_of_nat (attempt + 1) ++ "/"
            ++ Py.str_of_nat MAX_2FA_RETRIES ++ "...") STEP.

(** The line printed when the last code was rejected too. *)
Definition retries_exhausted_line : string :=
  log_line ("2FA 验证失败（已尝试 " ++ Py.str_of_nat MAX_2FA_RETRIES ++ " 次）") ERROR.

Definition mute : event -> list unit := fun _ => [].


(** Both credentials are set and not empty. *)
Definition credentials_given (env : Environ) (username password : string) : Prop :=
  GH_USERNAME env = Some username /\ username <> "" /\
  GH_PASSWORD env = Some password /\ password <> "".

(** The two lines printed when a credential is missing. *)
Definition missing_credentials_lines : list string :=
  [ log_line "错误: 必须设置 GH_USERNAME 和 GH_PASSWORD 环境变量" ERROR;
    log_line "请在 GitHub Secrets 中配置这些值" ERROR ].




(** ** Properties of every event of a run *)

(** Every event of the trace of [m] satisfies [P]. *)
Definition every {A} (P : event -> Prop) (m : M A) : Prop := Forall P (fst m).

(** Starting and closing the browser. *)
Definition lifecycle (e : event) : list event :=
  match e with
  | Launch | NewContext | NewPage | CloseBrowser => [e]
  | _ => []
  end.

(** Typing and clicking. *)
Definition actions (e : event) : list event :=
  match e with
  | Fill _ _ | Click _ => [e]
  | _ => []
  end.

(** The event with the text typed blanked out. *)
Definition mask (e : event) : event :=
  match e with
  | Fill selector _ => Fill selector ""
  | _ => e
  end.

(** Every sleep lasts between half a second and 32 seconds. *)
Definition sleeps_in_bounds (e : event) : Prop :=
  match e with
  | Sleep secs => (1 # 2 <= secs /\ secs <= 32)%Q
  | _ => True
  end.

(** The event is none of the four that start or close the browser. *)
Definition inside_session (e : event) : Prop := lifecycle e = [].

(** A code generated from the secret in one of the attempts. *)
Definition generated (page : TwoFactorPage) (totp_secret : option string)
  (code : string) : Prop :=
  exists secret attempt,
    totp_secret = Some secret /\ (attempt < MAX_2FA_RETRIES)%nat /\
    totp_now page secret attempt = inl code.

(** What [fill_github_credentials] may do: print, take screenshots, type
    the empty string or the username into the username field and the
    empty string or the password into the password field, and click one
    of its submit selectors. *)
Definition credential_footprint (username password : string) (e : event) : Prop :=
  match e with
  | Stdout _ | Screenshot _ => True
  | Fill selector text =>
      (selector = "#login_field" /\ (text = "" \/ text = username)) \/
      (selector = "#password" /\ (text = "" \/ text = password))
  | Click selector => In selector credential_submit_selectors
  | _ => False
  end.

(** What [handle_2fa_verification] may do: print, take screenshots,
    generate codes, clear, fill and press Enter on one of its input
    selectors, type nothing but a generated code, click one of its submit
    selectors, and sleep half a second, the settle time, three seconds
    or the time to the next code window. *)
Definition two_factor_footprint (page : TwoFactorPage) (totp_secret : option string)
  (e : event) : Prop :=
  match e with
  | Stdout _ | Screenshot _ => True
  | TotpNow code => generated page totp_secret code
  | Fill selector text => In selector input_selectors /\ generated page totp_secret text
  | Clear selector => In selector input_selectors
  | Press selector key => In selector input_selectors /\ key = "Enter"
  | Click selector => In selector submit_selectors
  | Sleep secs =>
      secs = (1 # 2)%Q \/ secs = seconds WAIT_AFTER_2FA \/ secs = 3%Q \/
      exists attempt, (attempt < MAX_2FA_RETRIES - 1)%nat /\
                      secs = sleep_until_next_window (time_time page attempt)
  | _ => False
  end.

(** What [handle_device_verification] may do: print, take a screenshot,
    sleep one second at a time and evaluate the empty script. *)
Definition device_footprint (e : event) : Prop :=
  match e with
  | Stdout _ | Screenshot _ => True
  | Sleep secs => secs = 1%Q
  | Evaluate script => script = "() => {}"
  | _ => False
  end.

(** What [handle_oauth_authorization] may do: print, take a screenshot,
    click one of its authorize selectors and sleep three seconds. *)
Definition oauth_footprint (e : event) : Prop :=
  match e with
  | Stdout _ | Screenshot _ => True
  | Click selector => In selector authorize_selectors
  | Sleep secs => secs = 3%Q
  | _ => False
  end.

(** Printing and nothing else. *)
Definition prints_only (e : event) : Prop :=
  match e with
  | Stdout _ => True
  | _ => False
  end.

(** What the steps of [run_login] do themselves, the helpers apart:
    print, take screenshots, open the console, click one of the provider
    buttons, and sleep two, three or [FINAL_WAIT] seconds. *)
Definition own_footprint (e : event) : Prop :=
  match e with
  | Stdout _ | Screenshot _ | Stderr_traceback _ => True
  | Goto url => url = CLAW_CLOUD_URL
  | Click selector => In selector github_button_selectors
  | Sleep secs => secs = 2%Q \/ secs = 3%Q \/ secs = seconds FINAL_WAIT
  | _ => False
  end.

(** What the [try] statement of [run_login] may do: its own steps, and
    each helper within its footprint, the credential form only when the
    location after the provider button is the login form. *)
Definition flow_footprint (w : World) (username password : string)
  (totp_secret : option string) (e : event) : Prop :=
  own_footprint e \/
  (on_login_form (url_after_click w) = true /\
   credential_footprint username password e) \/
  device_footprint e \/
  two_factor_footprint (two_factor_page w) totp_secret e \/
  oauth_footprint e.

(** What a run may type: the username and the password, each into its
    own field (after clearing it) and only when the location after the
    provider button is the login form, and otherwise only a generated
    code into a two-factor input. *)
Definition typed_where_it_belongs (w : World) (username password : string)
  (totp_secret : option string) (e : event) : Prop :=
  match e with
  | Fill selector text =>
      (on_login_form (url_after_click w) = true /\
       ((selector = "#login_field" /\ (text = "" \/ text = username)) \/
        (selector = "#password" /\ (text = "" \/ text = password)))) \/
      (In selector input_selectors /\ generated (two_factor_page w) totp_secret text)
  | _ => True
  end.

(** A credential form that takes the credentials. *)
Definition login_form : CredentialsPage := {|
  wait_login_field := None;
  fill_raises := fun _ => None;
  cred_screenshot := no_shot;
  cred_submit := fun selector =>
    if String.eqb selector "input[type='submit']" then Clicked else NotVisible
|}.

(** A run that is already signed in and ends on the console. *)
Definition confirmed_world : World := {|
  goto_outcome := Done;
  load_outcome := fun _ => Done;
  sleep_interrupted := fun _ => false;
  run_screenshot := no_shot;
  github_button := fun _ => NotVisible;
  url_no_button := "https://ap-northeast-1.run.claw.cloud/";
  url_after_click := "https://ap-northeast-1.run.claw.cloud/";
  url_after_login := "about:blank";
  url_after_device := "about:blank";
  url_after_2fa := "about:blank";
  credentials_page := login_form;
  device_page := approved_at_45;
  two_factor_page := rejecting_page;
  oauth_page := sample_oauth;
  final_page := console_page
|}.

(** The four fills of the credential form, in program order. *)
Definition credential_fills (username password : string) : list event :=
  [ Fill "#login_field" ""; Fill "#login_field" username;
    Fill "#password" ""; Fill "#password" password ].

(** Two computations do the same but for the text they type. *)
Definition same_but_typed {A} (m m' : M A) : Prop :=
  map mask (fst m) = map mask (fst m') /\ snd m = snd m'.

(** Other credentials with the same first three characters of the
    username. *)
Definition other_credentials : Environ := {|
  GH_USERNAME := Some "octopus";
  GH_PASSWORD := Some "correct horse battery staple";
  GH_2FA_SECRET := Some "JBSWY3DPEHPK3PXP"
|}.

(** Submitting a form: a click or a key press. *)
Definition submissions (e : event) : list event :=
  match e with
  | Click _ | Press _ _ => [e]
  | _ => []
  end.

(** The answers of every [page.screenshot] of a run. *)
Record Camera : Type := {
  shot_run : string -> option error;
  shot_credentials : string -> option error;
  shot_device : string -> option error;
  shot_two_factor : nat -> string -> option error;
  shot_oauth : string -> option error
}.

(** The same world, but for what [page.screenshot] answers. *)
Definition with_camera (c : Camera) (w : World) : World := {|
  goto_outcome := goto_outcome w;
  load_outcome := load_outcome w;
  sleep_interrupted := sleep_interrupted w;
  run_screenshot := shot_run c;
  github_button := github_button w;
  url_no_button := url_no_button w;
  url_after_click := url_after_click w;
  url_after_login := url_after_login w;
  url_after_device := url_after_device w;
  url_after_2fa := url_after_2fa w;
  credentials_page := {|
    wait_login_field := wait_login_field (credentials_page w);
    fill_raises := fill_raises (credentials_page w);
    cred_screenshot := shot_credentials c;
    cred_submit := cred_submit (credentials_page w)
  |};
  device_page := {|
    dv_screenshot := shot_device c;
    url_at_second := url_at_second (device_page w);
    evaluate_raises := evaluate_raises (device_page w)
  |};
  two_factor_page := {|
    tf_screenshot := shot_two_factor c;
    totp_now := totp_now (two_factor_page w);
    input_visible := input_visible (two_factor_page w);
    clear_raises := clear_raises (two_factor_page w);
    code_fill_raises := code_fill_raises (two_factor_page w);
    tf_submit := tf_submit (two_factor_page w);
    press_raises := press_raises (two_factor_page w);
    tf_load_state := tf_load_state (two_factor_page w);
    url_after_submit := url_after_submit (two_factor_page w);
    error_banner := error_banner (two_factor_page w);
    time_time := time_time (two_factor_page w)
  |};
  oauth_page := {|
    oa_screenshot := shot_oauth c;
    authorize := authorize (oauth_page w)
  |};
  final_page := final_page w
|}.

(** What a run does besides printing and writing screenshots. *)
Definition deeds (e : event) : list event :=
  match e with
  | Stdout _ | Screenshot _ => []
  | _ => [e]
  end.

(** Two computations do the same and end the same; what they print and
    which screenshots they write may differ. *)
Definition alike {A} (m m' : M A) : Prop :=
  observed deeds (fst m) = observed deeds (fst m') /\ snd m = snd m'.

(** A camera whose every screenshot fails. *)
Definition broken_camera : Camera := {|
  shot_run := fun _ => Some (OtherError "Target closed");
  shot_credentials := fun _ => Some (OtherError "Target closed");
  shot_device := fun _ => Some (OtherError "Target closed");
  shot_two_factor := fun _ _ => Some (OtherError "Target closed");
  shot_oauth := fun _ => Some (OtherError "Target closed")
|}.

(** The console, with every element lookup raising. *)
Definition unreadable_console : FinalPage := {|
  final_url := "https://ap-northeast-1.run.claw.cloud/";
  text_count := fun _ => None;
  locator_count := fun _ => None
|}.

(** A run that reaches a credential form which takes the credentials. *)
Definition accepted_at_login : World := {|
  goto_outcome := Done;
  load_outcome := fun _ => Done;
  sleep_interrupted := fun _ => false;
  run_screenshot := no_shot;
  github_button := fun selector =>
    if String.eqb selector "button:has-text('GitHub')" then Clicked else NotVisible;
  url_no_button := "https://ap-northeast-1.run.claw.cloud/signin";
  url_after_click := "https://github.com/login?client_id=x";
  url_after_login := "https://ap-northeast-1.run.claw.cloud/";
  url_after_device := "https://ap-northeast-1.run.claw.cloud/";
  url_after_2fa := "https://ap-northeast-1.run.claw.cloud/";
  credentials_page := login_form;
  device_page := approved_at_45;
  two_factor_page := rejecting_page;
  oauth_page := sample_oauth;
  final_page := console_page
|}.

(** A rejecting page whose code generator works once and then raises. *)
Definition generator_breaks_page : TwoFactorPage := {|
  tf_screenshot := tf_screenshot rejecting_page;
  totp_now := fun secret attempt =>
    match attempt with
    | O => totp_now rejecting_page secret attempt
    | S _ => inr (OtherError "Incorrect padding")
    end;
  input_visible := input_visible rejecting_page;
  clear_raises := clear_raises rejecting_page;
  code_fill_raises := code_fill_raises rejecting_page;
  tf_submit := tf_submit rejecting_page;
  press_raises := press_raises rejecting_page;
  tf_load_state := tf_load_state rejecting_page;
  url_after_submit := url_after_submit rejecting_page;
  error_banner := error_banner rejecting_page;
  time_time := time_time rejecting_page
|}.

(** ** The success heuristic as the specification words it *)

(** Signal 4 in the words of the specification: the page contains an
    element matching a user-menu or avatar pattern. *)
Definition claimed_signal_user_menu (page : FinalPage) : bool :=
  existsb (fun selector => found (locator_count page selector)) user_menu_selectors.

(** The tally of the four signals of the specification. *)
Definition claimed_tally (page : FinalPage) : nat :=
  Nat.b2n (signal_target_url page) + Nat.b2n (signal_left_provider page) +
  Nat.b2n (signal_landmark page) + Nat.b2n (claimed_signal_user_menu page).

(** A page off both hosts that shows an avatar, while the lookup of the
    first user-menu selector raises. *)
Definition avatar_behind_raise : FinalPage := {|
  final_url := "about:blank";
  text_count := fun _ => Some 0%nat;
  locator_count := fun selector =>
    if String.eqb selector "[data-testid='user-menu']" then None
    else if String.eqb selector ".user-avatar" then Some 1%nat
    else Some 0%nat
|}.

(** ** Interrupts inside guarded lookups *)






(** ** run_login with a browser that can fail to start or to close *)

(** What starting and closing the browser answer.  Lines 411-426 run
    before the [try] statement, so an exception or an interrupt there
    leaves [run_login] past every handler and past the [finally] clause. *)
Record Browser : Type := {
  (* with sync_playwright() as p *)
  playwright_outcome : outcome;
  (* p.chromium.launch(...) *)
  launch_outcome : outcome;
  (* browser.new_context(...) *)
  new_context_outcome : outcome;
  (* context.new_page() *)
  new_page_outcome : outcome;
  (* browser.close() of the finally clause *)
  close_outcome : outcome
}.

(** Lines 411-426. *)
Definition start_browser (b : Browser) : M unit :=
  blocking (playwright_outcome b) ;;
  blocking (launch_outcome b) ;;
  emit Launch ;;
  blocking (new_context_outcome b) ;;
  emit NewContext ;;
  blocking (new_page_outcome b) ;;
  emit NewPage.

(** [browser.close()]: the event records the call; the call may raise.
    Leaving the [with] block stops Playwright whether or not the browser
    was closed; that is no event of the model. *)
Definition close_browser (b : Browser) : M unit :=
  emit CloseBrowser ;;
  blocking (close_outcome b).

(** [try: m finally: fin], for a [fin] that may raise: what [fin] raises
    replaces the outcome of [m]. *)
Definition try_finally_raising {A} (m : M A) (fin : M unit) : M A :=
  let (trace, r) := m in
  let (trace', r') := fin in
  (trace ++ trace',
   match r' with
   | Ret _ => r
   | Raise e => Raise e
   end).

(** [run_login] with its browser; [run_login] above is the case of a
    browser that starts and closes without failure. *)
Definition run_login_session (b : Browser) (env : Environ) (w : World) : M unit :=
  banner_lines ;;
  config_check env ;;
  match GH_USERNAME env, GH_PASSWORD env with
  | Some (String _ _ as username), Some (String _ _ as password) =>
      print "" ;;
      log_step "启动浏览器..." STEP ;;
      start_browser b ;;
      try_finally_raising
        (with_handlers w (login_flow w username password (GH_2FA_SECRET env)))
        (close_browser b)
  | _, _ =>
      log_step "错误: 必须设置 GH_USERNAME 和 GH_PASSWORD 环境变量" ERROR ;;
      log_step "请在 GitHub Secrets 中配置这些值" ERROR ;;
      sys_exit 1
  end.

Definition browser_works : Browser := {|
  playwright_outcome := Done;
  launch_outcome := Done;
  new_context_outcome := Done;
  new_page_outcome := Done;
  close_outcome := Done
|}.

(** A browser that launches and then fails to open a context. *)
Definition context_fails : Browser := {|
  playwright_outcome := Done;
  launch_outcome := Done;
  new_context_outcome := Fails (OtherError "Target page, context or browser has been closed");
  new_page_outcome := Done;
  close_outcome := Done
|}.

(** * Properties *)

(** ** Strings *)

(** [s[:3]] counts code points, not bytes. *)
Lemma take_counts_code_points :
  Py.take 3 "日本語ユーザー" = "日本語" /\ Py.take 3 "日本人ユーザー" = "日本人" /\
  Py.take 3 "octocat" = "oct" /\ Py.take 3 "ab" = "ab".
Proof. repeat split; vm_compute; reflexivity. Qed.

Lemma prefix_iff (s t : string) :
  String.prefix s t = true <-> exists rest, t = (s ++ rest)%string.
Proof.
  revert t; induction s as [|c s IH]; intros [|d t]; simpl.
  - split; eauto.
  - split; eauto.
  - split; [discriminate | intros [rest H]; discriminate].
  - destruct (ascii_dec c d) as [->|Hne].
    + rewrite IH. split; intros [rest H]; exists rest.
      * now subst.
      * now inversion H.
    + split; [discriminate | intros [rest H]; inversion H; subst; now elim Hne].
Qed.

Lemma append_assoc (a b c : string) :
  ((a ++ b) ++ c = a ++ (b ++ c))%string.
Proof. induction a; simpl; congruence. Qed.

(** [needle in hay] holds exactly when [hay] splits around [needle]. *)
Lemma str_in_iff (needle hay : string) :
  Py.str_in needle hay = true <->
  exists before after, hay = (before ++ needle ++ after)%string.
Proof.
  induction hay as [|c hay IH]; cbn [Py.str_in].
  - rewrite orb_false_r, prefix_iff. split.
    + intros [rest H]. exists EmptyString, rest. exact H.
    + intros [before [after H]]. destruct before; [eauto | discriminate].
  - rewrite orb_true_iff, prefix_iff, IH. split.
    + intros [[rest H] | [before [after H]]].
      * exists EmptyString, rest. exact H.
      * exists (String c before), after. simpl. now rewrite H.
    + intros [before [after H]]. destruct before as [|d before].
      * left. exists after. exact H.
      * right. exists before, after. simpl in H. now inversion H.
Qed.

Lemma str_in_trans (a b c : string) :
  Py.str_in a b = true -> Py.str_in b c = true -> Py.str_in a c = true.
Proof.
  rewrite !str_in_iff. intros [p [q ->]] [r [s ->]].
  exists (r ++ p)%string, (q ++ s)%string.
  now rewrite !append_assoc.
Qed.

(** C9: the second conjunct of the test of line 224 is redundant: a URL
    has left the two-factor page, by the test the code uses, exactly
    when ['two-factor'] is not a substring of it. *)
Theorem left_two_factor_single_test (current_url : string) :
  left_two_factor current_url = negb (Py.str_in "two-factor" current_url).
Proof.
  unfold left_two_factor.
  destruct (Py.str_in "two-factor" current_url) eqn:Hshort; simpl; [reflexivity|].
  destruct (Py.str_in "sessions/two-factor" current_url) eqn:Hlong; [|reflexivity].
  assert (Py.str_in "two-factor" current_url = true) as H.
  { apply (str_in_trans _ "sessions/two-factor"); [reflexivity | exact Hlong]. }
  congruence.
Qed.

(** The guard of step 8 has the same redundancy. *)
Lemma on_two_factor_page_single_test (current_url : string) :
  on_two_factor_page current_url = Py.str_in "two-factor" current_url.
Proof.
  unfold on_two_factor_page.
  destruct (Py.str_in "two-factor" current_url) eqn:Hshort; simpl; [reflexivity|].
  destruct (Py.str_in "sessions/two-factor" current_url) eqn:Hlong; [|reflexivity].
  rewrite <- Hshort. symmetry.
  apply (str_in_trans _ "sessions/two-factor"); [reflexivity | exact Hlong].
Qed.

(** ** The trace monad *)

Lemma fst_bind {A B} (m : M A) (f : A -> M B) :
  fst (bind m f) =
  fst m ++ match snd m with Ret a => fst (f a) | Raise _ => [] end.
Proof.
  destruct m as [t [a|e]]; simpl.
  - now destruct (f a).
  - now rewrite app_nil_r.
Qed.

Lemma snd_bind {A B} (m : M A) (f : A -> M B) :
  snd (bind m f) = match snd m with Ret a => snd (f a) | Raise e => Raise e end.
Proof. destruct m as [t [a|e]]; simpl; [now destruct (f a) | reflexivity]. Qed.

Lemma fst_catch {A} (m : M A) handler :
  fst (catch m handler) =
  fst m ++ match snd m with
           | Ret _ => []
           | Raise e => match handler e with Some h => fst h | None => [] end
           end.
Proof.
  destruct m as [t [a|e]]; simpl.
  - now rewrite app_nil_r.
  - destruct (handler e) as [[t' r']|]; simpl; [reflexivity | now rewrite app_nil_r].
Qed.

Lemma snd_catch {A} (m : M A) handler :
  snd (catch m handler) =
  match snd m with
  | Ret a => Ret a
  | Raise e => match handler e with Some h => snd h | None => Raise e end
  end.
Proof.
  destruct m as [t [a|e]]; simpl; [reflexivity|].
  now destruct (handler e) as [[t' r']|].
Qed.

Lemma fst_try_finally {A} (m : M A) fin : fst (try_finally m fin) = fst m ++ fst fin.
Proof. now destruct m. Qed.

Lemma snd_try_finally {A} (m : M A) fin : snd (try_finally m fin) = snd m.
Proof. now destruct m. Qed.

Section WpRules.

Context {X : Type} (view : event -> list X).

Lemma observed_app (t1 t2 : list event) :
  observed view (t1 ++ t2) = observed view t1 ++ observed view t2.
Proof. apply flat_map_app. Qed.

Lemma wp_ret {A} (a : A) (K : list X -> result A -> Prop) :
  K [] (Ret a) -> wp view (ret a) K.
Proof. exact (fun H => H). Qed.

Lemma wp_raise {A} (e : exn) (K : list X -> result A -> Prop) :
  K [] (Raise e) -> wp view (raise e) K.
Proof. exact (fun H => H). Qed.

Lemma wp_emit (e : event) (K : list X -> result unit -> Prop) :
  K (view e) (Ret tt) -> wp view (emit e) K.
Proof. unfold wp; simpl. now rewrite app_nil_r. Qed.

Lemma wp_bind {A B} (m : M A) (f : A -> M B) (K : list X -> result B -> Prop) :
  wp view m (fun xs r => match r with
                         | Ret a => wp view (f a) (fun ys r' => K (xs ++ ys) r')
                         | Raise e => K xs (Raise e)
                         end) ->
  wp view (bind m f) K.
Proof.
  unfold wp. rewrite fst_bind, snd_bind, observed_app.
  destruct (snd m) as [a|e]; [trivial|]. simpl. now rewrite app_nil_r.
Qed.

Lemma wp_catch {A} (m : M A) handler (K : list X -> result A -> Prop) :
  wp view m (fun xs r => match r with
                         | Ret a => K xs (Ret a)
                         | Raise e =>
                             match handler e with
                             | Some h => wp view h (fun ys r' => K (xs ++ ys) r')
                             | None => K xs (Raise e)
                             end
                         end) ->
  wp view (catch m handler) K.
Proof.
  unfold wp. rewrite fst_catch, snd_catch, observed_app.
  destruct (snd m) as [a|e].
  - simpl. now rewrite app_nil_r.
  - destruct (handler e) as [h|]; [trivial|]. simpl. now rewrite app_nil_r.
Qed.

Lemma wp_mono {A} (m : M A) (K K' : list X -> result A -> Prop) :
  wp view m K -> (forall xs r, K xs r -> K' xs r) -> wp view m K'.
Proof. unfold wp; auto. Qed.

Lemma wp_for_each_nil {I A} (body : I -> M (option A)) after K :
  wp view after K -> wp view (for_each [] body after) K.
Proof. exact (fun H => H). Qed.

Lemma wp_for_each_cons {I A} i rest (body : I -> M (option A)) after K :
  wp view (body i) (fun xs r => match r with
     | Ret (Some v) => K xs (Ret v)
     | Ret None => wp view (for_each rest body after) (fun ys r' => K (xs ++ ys) r')
     | Raise e => K xs (Raise e)
     end) ->
  wp view (for_each (i :: rest) body after) K.
Proof.
  intros H. cbn [for_each]. apply wp_bind. eapply wp_mono; [exact H|].
  intros xs [[v|]|e] HK; cbn beta iota; trivial.
  unfold wp, ret; simpl. now rewrite app_nil_r.
Qed.

Hypothesis view_blind : blind view.

Lemma wp_log_step msg l (K : list X -> result unit -> Prop) :
  K [] (Ret tt) -> wp view (log_step msg l) K.
Proof. intros H. apply wp_emit. now rewrite (view_blind (Stdout _)). Qed.

Lemma wp_print line (K : list X -> result unit -> Prop) :
  K [] (Ret tt) -> wp view (print line) K.
Proof. intros H. apply wp_emit. now rewrite (view_blind (Stdout _)). Qed.

Lemma wp_may_raise o (K : list X -> result unit -> Prop) :
  (o = None -> K [] (Ret tt)) ->
  (forall e, o = Some e -> K [] (Raise (Exception e))) ->
  wp view (may_raise o) K.
Proof. intros H1 H2. destruct o; [now apply H2 | now apply H1]. Qed.

Lemma wp_safe_screenshot shot filename description (K : list X -> result bool -> Prop) :
  (forall b, K [] (Ret b)) -> wp view (safe_screenshot shot filename description) K.
Proof.
  intros H. unfold safe_screenshot. destruct shot.
  - apply wp_bind, wp_log_step. now apply wp_ret.
  - apply wp_bind, wp_emit. rewrite (view_blind (Screenshot _)).
    apply wp_bind, wp_log_step. apply wp_bind.
    destruct (String.eqb description ""); [apply wp_ret | apply wp_log_step]; now apply wp_ret.
Qed.

Lemma wp_try_click page selectors description (K : list X -> result bool -> Prop) :
  K [] (Ret (existsb (fun selector => is_clicked (page selector)) selectors)) ->
  wp view (try_click page selectors description) K.
Proof.
  intros H. induction selectors as [|selector rest IH]; cbn [try_click].
  - apply wp_bind, wp_log_step. now apply wp_ret.
  - cbn [existsb] in H. destruct (page selector); cbn [is_clicked orb] in H; auto.
    apply wp_bind, wp_emit. rewrite (view_blind (Click _)).
    apply wp_bind, wp_log_step. now apply wp_ret.
Qed.

Lemma wp_click_submit page selectors (K : list X -> result bool -> Prop) :
  K [] (Ret (existsb (fun selector => is_clicked (page selector)) selectors)) ->
  wp view (click_submit page selectors) K.
Proof.
  intros H. induction selectors as [|selector rest IH]; cbn [click_submit].
  - now apply wp_ret.
  - cbn [existsb] in H. destruct (page selector); cbn [is_clicked orb] in H; auto.
    apply wp_bind, wp_emit. rewrite (view_blind (Click _)).
    apply wp_bind, wp_log_step. now apply wp_ret.
Qed.

Lemma wp_scan_errors page selectors (K : list X -> result unit -> Prop) :
  K [] (Ret tt) -> wp view (scan_errors page selectors) K.
Proof.
  intros H. induction selectors as [|selector rest IH]; cbn [scan_errors].
  - now apply wp_ret.
  - destruct (page selector); auto using wp_log_step, wp_ret.
Qed.

End WpRules.

Lemma code_of_blind : blind code_of.
Proof. now intros []. Qed.

Lemma sleep_of_blind : blind sleep_of.
Proof. now intros []. Qed.

(** ** The sleep between two failed attempts *)

Section SleepWindow.

Local Open Scope Q_scope.

Lemma fmod_30_range (x : Q) : 0 <= Py.fmod x 30 /\ Py.fmod x 30 < 30.
Proof.
  unfold Py.fmod.
  pose proof (Qfloor_le (x / 30)) as Hlo.
  pose proof (Qlt_floor (x / 30)) as Hhi.
  rewrite inject_Z_plus in Hhi.
  assert (x == 30 * (x / 30)) as Hx by field.
  set (y := x / 30) in *. set (k := inject_Z (Qfloor y)) in *.
  change (inject_Z 1) with 1 in Hhi.
  split; lra.
Qed.

Lemma Qfloor_unit (y : Q) : 0 <= y -> y < 1 -> Qfloor y = 0%Z.
Proof.
  intros H0 H1.
  pose proof (Qfloor_le y) as Hlo.
  pose proof (Qlt_floor y) as Hhi.
  assert (inject_Z (Qfloor y) < inject_Z 1) as A
    by (change (inject_Z 1) with 1; lra).
  assert (inject_Z (-1) < inject_Z (Qfloor y)) as B.
  { rewrite inject_Z_plus in Hhi. change (inject_Z 1) with 1 in Hhi.
    change (inject_Z (-1)) with (-1 # 1). lra. }
  rewrite <- Zlt_Qlt in A, B. lia.
Qed.

Lemma fmod_30_small (x : Q) : 0 <= x -> x < 30 -> Py.fmod x 30 == x.
Proof.
  intros H0 H1. unfold Py.fmod.
  rewrite (Qfloor_unit (x / 30)).
  - change (inject_Z 0) with 0. lra.
  - apply Qle_shift_div_l; lra.
  - apply Qlt_shift_div_r; lra.
Qed.

(** The sleep is the time left to the next multiple of 30 seconds, plus
    two seconds. *)
Lemma sleep_is_time_to_boundary_plus_2 (now : Q) :
  sleep_until_next_window now ==
  (30 * inject_Z (Qfloor (now / 30) + 1) - now) + 2.
Proof.
  unfold sleep_until_next_window, Py.fmod. rewrite inject_Z_plus.
  change (inject_Z 1) with 1. ring.
Qed.

(** C7, as amended: whatever the wall-clock time, the sleep is more than
    2 seconds and at most 32 seconds, and every duration in that range
    is the sleep of some phase. *)
Theorem sleep_until_next_window_range (now s : Q) :
  (2 < sleep_until_next_window now /\ sleep_until_next_window now <= 32) /\
  (2 < s /\ s <= 32 ->
   exists t, 0 <= t /\ t < 30 /\ sleep_until_next_window t == s).
Proof.
  split.
  - unfold sleep_until_next_window. pose proof (fmod_30_range now). lra.
  - intros [Hlo Hhi]. exists (32 - s). repeat split; try lra.
    unfold sleep_until_next_window. rewrite fmod_30_small; lra.
Qed.

Lemma sleep_until_next_window_range_witness :
  exists t, 0 <= t /\ t < 30 /\ sleep_until_next_window t == 17.
Proof.
  apply (proj2 (sleep_until_next_window_range 0 17)).
  split; [reflexivity | discriminate].
Defined.

(** C7, as stated, fails: no phase sleeps less than one second (the
    shortest sleeps are just over two), and at phase 0 the sleep is the
    full 32 seconds. *)
Lemma sleep_range_counterexample :
  sleep_until_next_window 0 == 32 /\ ~ sleeps_from_under_1_to_under_32.
Proof.
  split; [reflexivity|].
  intros [_ H]. specialize (H 0 (Qle_refl 0)). revert H. discriminate.
Qed.

End SleepWindow.

(** ** The success heuristic *)

Lemma check_page_text_length page checks acc :
  length (check_page_text page checks acc) =
  (length acc +
   Nat.b2n (existsb (fun check => found (text_count page (fst check))) checks))%nat.
Proof.
  induction checks as [|[text description] rest IH]; cbn [check_page_text existsb fst].
  - simpl. lia.
  - destruct (text_count page text) as [n|]; cbn [found].
    + destruct (0 <? n)%nat; cbn [orb].
      * rewrite length_app. reflexivity.
      * exact IH.
    + exact IH.
Qed.

Lemma check_user_menu_length page selectors acc :
  length (check_user_menu page selectors acc) =
  (length acc + Nat.b2n (first_match (map (locator_count page) selectors)))%nat.
Proof.
  induction selectors as [|selector rest IH]; cbn [check_user_menu map first_match].
  - simpl. lia.
  - destruct (locator_count page selector) as [n|].
    + destruct (0 <? n)%nat; cbn [orb].
      * rewrite length_app. reflexivity.
      * exact IH.
    + simpl. lia.
Qed.

(** Every signal adds one entry to [success_indicators], or none. *)
Lemma success_indicators_length page :
  length (success_indicators page) = tally page.
Proof.
  unfold success_indicators, tally.
  rewrite check_user_menu_length, check_page_text_length.
  fold (signal_landmark page). fold (signal_user_menu page).
  unfold signal_target_url, signal_left_provider.
  destruct (Py.str_in "claw.cloud" (final_url page) &&
            negb (Py.str_in "signin" (final_url page)));
    destruct (negb (Py.str_in "github.com" (final_url page))); reflexivity.
Qed.

Lemma verify_login_success_returns page :
  snd (verify_login_success page) = Ret (2 <=? tally page)%nat.
Proof.
  unfold verify_login_success. rewrite !snd_bind.
  cbn [snd log_step emit ret]. now rewrite success_indicators_length.
Qed.

(** With no lookup raising, signal 4 is that some selector matches. *)
Lemma signal_user_menu_without_errors page :
  (forall selector, locator_count page selector <> None) ->
  signal_user_menu page =
  existsb (fun selector => found (locator_count page selector)) user_menu_selectors.
Proof.
  intros H. unfold signal_user_menu.
  induction user_menu_selectors as [|selector rest IH]; cbn [map first_match existsb].
  - reflexivity.
  - specialize (H selector). destruct (locator_count page selector); [|contradiction].
    cbn [found]. now rewrite IH.
Qed.

(** X18: [verify_login_success] declares success exactly when at least
    2 of its 4 signals, as the code evaluates them, hold: the location
    contains [claw.cloud] and not [signin]; the location does not contain
    [github.com]; a landmark phrase is found, a phrase whose lookup raises
    counting as absent; a user-menu selector matches and no selector
    tried before it raised.  Each signal adds at most one entry to the
    tally, so the tally is at most 4; a page with exactly 2 true signals
    is a success and a page with exactly 1 is a failure. *)
Theorem verify_login_success_threshold (page : FinalPage) :
  (tally page <= 4)%nat /\
  length (success_indicators page) = tally page /\
  (returns (verify_login_success page) true <-> (2 <= tally page)%nat) /\
  (returns (verify_login_success page) false <-> (tally page < 2)%nat) /\
  (tally page = 2%nat -> returns (verify_login_success page) true) /\
  (tally page = 1%nat -> returns (verify_login_success page) false).
Proof.
  unfold returns. rewrite verify_login_success_returns.
  split; [|split; [apply success_indicators_length|]].
  - unfold tally.
    destruct (signal_target_url page), (signal_left_provider page),
      (signal_landmark page), (signal_user_menu page); simpl; lia.
  - destruct (Nat.leb_spec 2 (tally page)); repeat split; intros; try lia;
      try congruence; try discriminate.
Qed.

Lemma verify_login_success_threshold_witness :
  tally console_page = 2%nat /\ returns (verify_login_success console_page) true /\
  tally blank_page = 1%nat /\ returns (verify_login_success blank_page) false.
Proof.
  split; [vm_compute; reflexivity|]. split.
  - apply (proj1 (proj2 (proj2 (proj2 (proj2 (verify_login_success_threshold console_page)))))).
    vm_compute; reflexivity.
  - split; [vm_compute; reflexivity|].
    apply (proj2 (proj2 (proj2 (proj2 (proj2 (verify_login_success_threshold blank_page)))))).
    vm_compute; reflexivity.
Defined.

(** C1: the claim fails on the code.  Check 4 has one [try] around its
    whole loop (lines 363-376), so the first lookup that raises ends the
    check, where check 3 goes on to the next phrase.  On a page off both
    hosts that shows an avatar while the lookup of the first user-menu
    selector raises, two of the four signals of the claim hold (the
    location is not on the provider host, an avatar element is present)
    and [verify_login_success] returns failure.  On every page where no
    user-menu lookup raises, the function does return success exactly
    when at least 2 of the 4 signals of the claim hold. *)
Theorem user_menu_check_ends_at_first_raise :
  claimed_tally avatar_behind_raise = 2%nat /\
  claimed_signal_user_menu avatar_behind_raise = true /\
  signal_user_menu avatar_behind_raise = false /\
  returns (verify_login_success avatar_behind_raise) false /\
  forall page,
    (forall selector, locator_count page selector <> None) ->
    (returns (verify_login_success page) true <-> (2 <= claimed_tally page)%nat) /\
    (returns (verify_login_success page) false <-> (claimed_tally page < 2)%nat).
Proof.
  split; [vm_compute; reflexivity|]. split; [vm_compute; reflexivity|].
  split; [vm_compute; reflexivity|]. split; [vm_compute; reflexivity|].
  intros page Hcount. unfold returns. rewrite verify_login_success_returns.
  assert (tally page = claimed_tally page) as ->.
  { unfold tally, claimed_tally, claimed_signal_user_menu.
    now rewrite (signal_user_menu_without_errors page Hcount). }
  destruct (Nat.leb_spec 2 (claimed_tally page)); repeat split; intros; try lia;
    try congruence; try discriminate.
Qed.


(** ** Device verification *)

Lemma wp_poll_device page i (K : list Q -> result (option bool) -> Prop) :
  K [1%Q] (Ret (if hit page i then Some true else None)) ->
  wp sleep_of (poll_device page i) K.
Proof.
  intros H. unfold poll_device, hit in *.
  apply wp_bind, wp_emit. cbn [sleep_of].
  destruct (i mod 10 =? 0)%nat; cbn [andb] in H.
  - apply wp_bind, (wp_log_step _ sleep_of_blind).
    destruct (left_device_page _).
    + apply wp_bind, (wp_log_step _ sleep_of_blind). now apply wp_ret.
    + destruct (evaluate_raises page i); [now apply wp_ret|].
      apply wp_bind, wp_emit. now apply wp_ret.
  - now apply wp_ret.
Qed.

Lemma wp_poll_loop page after n : forall start (K : list Q -> result bool -> Prop),
  match find (hit page) (seq start n) with
  | Some i => K (repeat 1%Q (i - start + 1)) (Ret true)
  | None => wp sleep_of after (fun ys r => K (repeat 1%Q n ++ ys) r)
  end ->
  wp sleep_of (for_each (seq start n) (poll_device page) after) K.
Proof.
  induction n as [|n IH]; intros start K H; cbn [seq find] in *.
  - exact H.
  - apply wp_for_each_cons, wp_poll_device.
    destruct (hit page start) eqn:Hhit.
    + replace (start - start + 1)%nat with 1%nat in H by lia. exact H.
    + apply IH. destruct (find (hit page) (seq (S start) n)) as [i|] eqn:Hfind.
      * apply find_some in Hfind. destruct Hfind as [Hin _].
        apply in_seq in Hin.
        replace (i - start + 1)%nat with (S (i - S start + 1)) in H by lia.
        exact H.
      * exact H.
Qed.

Lemma find_hit_60 page :
  find (hit page) (seq 0 60) =
  option_map pred
    (find (fun s => left_device_page (url_at_second page s)) [1; 11; 21; 31; 41; 51]%nat).
Proof.
  unfold hit. cbn.
  repeat match goal with
         | |- context [left_device_page ?u] => destruct (left_device_page u); cbn; try reflexivity
         end.
Qed.

Lemma step7_device_fatal w current_url :
  on_device_page current_url = true ->
  snd (handle_device_verification (device_page w)) = Ret false ->
  snd (step7_device w current_url) = Raise (SystemExit 1).
Proof.
  intros Hon Hfail. unfold step7_device. rewrite Hon, snd_bind, Hfail.
  reflexivity.
Qed.

(** What [handle_device_verification] returns and how long it sleeps,
    by the first reading at which the location has left the device page. *)
Lemma handle_device_verification_spec (page : DevicePage) :
  wp sleep_of (handle_device_verification page)
    (fun xs r =>
       match find (fun s => left_device_page (url_at_second page s)) check_seconds with
       | Some s => r = Ret true /\ xs = repeat 1%Q s
       | None => r = Ret false /\ xs = repeat 1%Q 60
       end).
Proof.
  unfold handle_device_verification.
  apply wp_bind, (wp_log_step _ sleep_of_blind).
  apply wp_bind, (wp_safe_screenshot _ sleep_of_blind); intros _.
  do 4 apply wp_bind, (wp_log_step _ sleep_of_blind).
  apply wp_poll_loop. rewrite find_hit_60. unfold check_seconds. cbn [find option_map].
  repeat match goal with
         | |- context [left_device_page (url_at_second page ?s)] =>
             destruct (left_device_page (url_at_second page s));
             cbn [option_map pred];
             [try (apply wp_bind, (wp_log_step _ sleep_of_blind); apply wp_ret);
              split; reflexivity|]
         end.
  apply wp_bind, (wp_log_step _ sleep_of_blind). apply wp_ret.
  split; reflexivity.
Qed.

(** C4, as amended: [handle_device_verification] sleeps one second at a
    time, at most 60 times, and reads the location only after seconds 1,
    11, 21, 31, 41 and 51 and once more after second 60.  It returns
    success at the first of these readings where the location no longer
    matches the device pattern, having slept that many seconds; if the
    location matches at all seven readings it returns failure after 60
    seconds, and step 7 of [run_login] exits with status 1. *)
Theorem device_poll_reads_location_every_tenth_tick (page : DevicePage) :
  let r := handle_device_verification page in
  match find (fun s => left_device_page (url_at_second page s)) check_seconds with
  | Some s => snd r = Ret true /\ slept (fst r) = repeat 1%Q s
  | None =>
      snd r = Ret false /\ slept (fst r) = repeat 1%Q 60 /\
      forall w current_url,
        device_page w = page -> on_device_page current_url = true ->
        snd (step7_device w current_url) = Raise (SystemExit 1)
  end.
Proof.
  cbv zeta. pose proof (handle_device_verification_spec page) as H.
  unfold wp in H. fold slept in H.
  destruct (find _ check_seconds) as [s|]; [exact H|].
  destruct H as [Hr Hs]. repeat split; trivial.
  intros w current_url <- Hon. now apply step7_device_fatal.
Qed.

Lemma device_poll_reads_location_every_tenth_tick_witness :
  snd (step7_device stuck_at_device "https://github.com/sessions/verified-device")
  = Raise (SystemExit 1).
Proof.
  apply (proj2 (proj2 (device_poll_reads_location_every_tenth_tick never_approved))
           stuck_at_device "https://github.com/sessions/verified-device");
    reflexivity.
Defined.

(** C4, as stated, fails: on a page whose location has left the device
    pattern from second 45 on, the function reports success only after
    sleeping 51 seconds, not at or right after second 45. *)
Lemma device_poll_counterexample :
  let r := handle_device_verification approved_at_45 in
  forallb (fun s => left_device_page (url_at_second approved_at_45 s)) (seq 45 16) = true /\
  snd r = Ret true /\
  slept (fst r) = repeat 1%Q 51 /\
  ~ (length (slept (fst r)) <= 46)%nat.
Proof.
  cbv zeta. split; [vm_compute; reflexivity|]. split; [vm_compute; reflexivity|].
  split; [vm_compute; reflexivity|].
  vm_compute. lia.
Qed.

(** ** The two-factor sub-protocol *)

(** One step of symbolic execution under a blind view. *)
Ltac wp_step B :=
  lazymatch goal with
  | |- wp _ (bind _ _) _ => apply wp_bind
  | |- wp _ (ret _) _ => apply wp_ret
  | |- wp _ (raise _) _ => apply wp_raise
  | |- wp _ (sys_exit _) _ => apply wp_raise
  | |- wp _ (log_step _ _) _ => apply (wp_log_step _ B)
  | |- wp _ (print _) _ => apply (wp_print _ B)
  | |- wp _ (safe_screenshot _ _ _) _ => apply (wp_safe_screenshot _ B); intros ?
  | |- wp _ (scan_errors _ _) _ => apply (wp_scan_errors _ B)
  | |- wp _ (click_submit _ _) _ => apply (wp_click_submit _ B)
  | |- wp _ (try_click _ _ _) _ => apply (wp_try_click _ B)
  | |- wp _ (sleep _) _ => apply wp_emit
  | |- wp _ (emit _) _ => apply wp_emit
  | |- wp _ (may_raise _) _ => apply wp_may_raise; [intros ? | intros ? ?]
  | |- wp _ (try_except_timeout _ _) _ => apply wp_catch
  | |- wp _ (try_except _ _) _ => apply wp_catch
  | |- wp _ (if ?b then _ else _) _ => destruct b eqn:?
  | |- context [match ?e with PlaywrightTimeout _ => _ | OtherError _ => _ end] =>
      destruct e
  end; cbn beta iota zeta.

Lemma submit_code_rejected page attempt selector code :
  left_two_factor (url_after_submit page attempt) = false ->
  wp code_of (submit_code page attempt selector code)
    (fun xs r => xs = [] /\ (r = Ret None \/ exists e, r = Raise (Exception e))).
Proof.
  intros Hurl. unfold submit_code. cbv zeta. rewrite Hurl.
  repeat wp_step code_of_blind.
  all: cbn [app code_of]; eauto.
Qed.

Lemma submit_code_accepted page attempt selector code :
  reaches_check page attempt ->
  left_two_factor (url_after_submit page attempt) = true ->
  wp code_of (submit_code page attempt selector code)
    (fun xs r => xs = [] /\ r = Ret (Some true)).
Proof.
  intros (_ & Hclear & Hfill & Hsubmit & Hload) Hurl.
  unfold submit_code. cbv zeta. rewrite Hurl, Hclear, Hfill.
  repeat wp_step code_of_blind.
  all: cbn [app code_of]; try discriminate; auto.
  all: try (exfalso; eapply Hload; eassumption).
  all: destruct Hsubmit; congruence.
Qed.

(** An accepted attempt sleeps its two half seconds and the settle time,
    and nothing after the check. *)
Lemma submit_code_accepted_sleeps page attempt selector code :
  reaches_check page attempt ->
  left_two_factor (url_after_submit page attempt) = true ->
  wp sleep_of (submit_code page attempt selector code)
    (fun xs r => xs = [1 # 2; 1 # 2; seconds WAIT_AFTER_2FA]%Q /\ r = Ret (Some true)).
Proof.
  intros (_ & Hclear & Hfill & Hsubmit & Hload) Hurl.
  unfold submit_code. cbv zeta. rewrite Hurl, Hclear, Hfill.
  repeat wp_step sleep_of_blind.
  all: cbn [app sleep_of]; try discriminate; auto.
  all: try (exfalso; eapply Hload; eassumption).
  all: destruct Hsubmit; congruence.
Qed.

(** A rejected attempt that is not the last one ends with the sleep to
    the next code window, computed from the wall clock. *)
Lemma submit_code_rejected_sleeps page attempt selector code :
  reaches_check page attempt ->
  left_two_factor (url_after_submit page attempt) = false ->
  wp sleep_of (submit_code page attempt selector code)
    (fun xs r =>
       xs = [1 # 2; 1 # 2; seconds WAIT_AFTER_2FA]%Q ++
            if (attempt <? MAX_2FA_RETRIES - 1)%nat
            then [sleep_until_next_window (time_time page attempt)]
            else []).
Proof.
  intros (_ & Hclear & Hfill & Hsubmit & Hload) Hurl.
  unfold submit_code. cbv zeta. rewrite Hurl, Hclear, Hfill.
  repeat wp_step sleep_of_blind.
  all: cbn [app sleep_of]; try discriminate; auto.
  all: try (exfalso; eapply Hload; eassumption).
  all: destruct Hsubmit; congruence.
Qed.

Lemma attempt_2fa_rejected page secret attempt code :
  totp_now page secret attempt = inl code ->
  left_two_factor (url_after_submit page attempt) = false ->
  wp code_of (attempt_2fa page secret attempt)
    (fun xs r => xs = [code] /\
                 (r = Ret None \/ (attempt = 2%nat /\ r = Ret (Some false)))).
Proof.
  intros Hgen Hurl. unfold attempt_2fa. rewrite Hgen.
  apply wp_bind, (wp_log_step _ code_of_blind).
  apply wp_bind, wp_emit. apply wp_bind, (wp_log_step _ code_of_blind).
  destruct (find_input _ _) as [selector|].
  - apply wp_bind, (wp_log_step _ code_of_blind). apply wp_catch.
    eapply wp_mono; [apply submit_code_rejected, Hurl|].
    cbn beta. intros xs r [-> [-> | [e ->]]]; cbn beta iota.
    + auto.
    + repeat wp_step code_of_blind; cbn [app code_of]; auto.
  - repeat wp_step code_of_blind; cbn [app code_of]; split; auto.
    right. split; [|reflexivity]. now apply Nat.eqb_eq in Heqb0.
Qed.

Lemma attempt_2fa_accepted page secret attempt code :
  totp_now page secret attempt = inl code ->
  reaches_check page attempt ->
  left_two_factor (url_after_submit page attempt) = true ->
  wp code_of (attempt_2fa page secret attempt)
    (fun xs r => xs = [code] /\ r = Ret (Some true)).
Proof.
  intros Hgen Hreach Hurl. unfold attempt_2fa. rewrite Hgen.
  apply wp_bind, (wp_log_step _ code_of_blind).
  apply wp_bind, wp_emit. apply wp_bind, (wp_log_step _ code_of_blind).
  destruct (find_input _ _) as [selector|] eqn:Hfind.
  - apply wp_bind, (wp_log_step _ code_of_blind). apply wp_catch.
    eapply wp_mono; [apply submit_code_accepted; assumption|].
    cbn beta. intros xs r [-> ->]. auto.
  - destruct Hreach as [Hinput _]. contradiction.
Qed.

Lemma attempt_2fa_undecodable page secret attempt e :
  totp_now page secret attempt = inr e ->
  wp code_of (attempt_2fa page secret attempt)
    (fun xs r => xs = [] /\ r = Ret (Some false)).
Proof.
  intros Hgen. unfold attempt_2fa. rewrite Hgen.
  repeat wp_step code_of_blind. auto.
Qed.

Lemma wp_prelude_2fa {X} (view : event -> list X) page K :
  blind view -> (forall b, K [] (Ret b)) -> wp view (prelude_2fa page) K.
Proof. intros B H. unfold prelude_2fa. repeat wp_step B. apply H. Qed.

Lemma handle_2fa_with_secret page secret :
  secret <> "" ->
  handle_2fa_verification page (Some secret) =
  (prelude_2fa page ;;
   for_each (seq 0 MAX_2FA_RETRIES) (attempt_2fa page secret) retries_exhausted).
Proof. intros H. unfold handle_2fa_verification. destruct secret; [contradiction | reflexivity]. Qed.

(** C2, as amended: for every non-empty secret from which a code is
    generated in each of the three attempts, and every page whose
    location matches the two-factor pattern at every check,
    [handle_2fa_verification] generates exactly [MAX_2FA_RETRIES] codes,
    whether an attempt finds no input field, raises, or has its code
    rejected, and then returns failure. *)
Theorem three_codes_then_failure page secret c0 c1 c2 :
  secret <> "" ->
  totp_now page secret 0 = inl c0 ->
  totp_now page secret 1 = inl c1 ->
  totp_now page secret 2 = inl c2 ->
  stays_on_two_factor page ->
  returns (handle_2fa_verification page (Some secret)) false /\
  codes (fst (handle_2fa_verification page (Some secret))) = [c0; c1; c2].
Proof.
  intros Hsecret H0 H1 H2 Hstay.
  rewrite (handle_2fa_with_secret page secret Hsecret).
  enough (wp code_of
            (prelude_2fa page ;;
             for_each (seq 0 MAX_2FA_RETRIES) (attempt_2fa page secret) retries_exhausted)
            (fun xs r => r = Ret false /\ xs = [c0; c1; c2])) as H by exact H.
  apply wp_bind, wp_prelude_2fa; [exact code_of_blind|]. intros _.
  cbn [MAX_2FA_RETRIES seq].
  apply wp_for_each_cons.
  eapply wp_mono; [exact (attempt_2fa_rejected _ _ _ _ H0 (Hstay _))|].
  cbn beta. intros xs r [-> [-> | [Habs _]]]; [|discriminate].
  apply wp_for_each_cons.
  eapply wp_mono; [exact (attempt_2fa_rejected _ _ _ _ H1 (Hstay _))|].
  cbn beta. intros xs r [-> [-> | [Habs _]]]; [|discriminate].
  apply wp_for_each_cons.
  eapply wp_mono; [exact (attempt_2fa_rejected _ _ _ _ H2 (Hstay _))|].
  cbn beta. intros xs r [-> [-> | [_ ->]]].
  - apply wp_for_each_nil. unfold retries_exhausted.
    repeat wp_step code_of_blind. auto.
  - auto.
Qed.

Lemma attempt_2fa_accepted_sleeps page secret attempt code :
  totp_now page secret attempt = inl code ->
  reaches_check page attempt ->
  left_two_factor (url_after_submit page attempt) = true ->
  slept (fst (attempt_2fa page secret attempt)) = [1 # 2; 1 # 2; seconds WAIT_AFTER_2FA]%Q.
Proof.
  intros Hgen Hreach Hurl.
  enough (wp sleep_of (attempt_2fa page secret attempt)
            (fun xs _ => xs = [1 # 2; 1 # 2; seconds WAIT_AFTER_2FA]%Q)) as H by exact H.
  unfold attempt_2fa. rewrite Hgen.
  apply wp_bind, (wp_log_step _ sleep_of_blind).
  apply wp_bind, wp_emit. apply wp_bind, (wp_log_step _ sleep_of_blind).
  destruct (find_input _ _) as [selector|] eqn:Hfind.
  - apply wp_bind, (wp_log_step _ sleep_of_blind). apply wp_catch.
    eapply wp_mono; [apply submit_code_accepted_sleeps; assumption|].
    cbn beta. intros xs r [-> ->]. reflexivity.
  - destruct Hreach as [Hinput _]. contradiction.
Qed.

(** A loop that returns in iteration [i] consists of the iterations up to
    [i] and nothing else. *)
Lemma for_each_stops {I A} (body : I -> M (option A)) after pre i post v :
  (forall j, In j pre -> snd (body j) = Ret None) ->
  snd (body i) = Ret (Some v) ->
  for_each (pre ++ i :: post) body after =
  (flat_map (fun j => fst (body j)) (pre ++ [i]), Ret v).
Proof.
  intros Hpre Hi. induction pre as [|j pre IH]; cbn [app for_each flat_map].
  - destruct (body i) as [t r]. cbn [snd fst] in *. subst r.
    cbn. now rewrite !app_nil_r.
  - rewrite IH by (intros; apply Hpre; now right).
    specialize (Hpre j (or_introl eq_refl)).
    destruct (body j) as [t r]. cbn [snd fst] in *. subst r. reflexivity.
Qed.

Lemma length_flat_map_singletons {I B} (f : I -> list B) (l : list I) :
  (forall i, In i l -> length (f i) = 1%nat) -> length (flat_map f l) = length l.
Proof.
  intros H. induction l as [|i l IH]; [reflexivity|].
  cbn [flat_map]. rewrite length_app, H, IH; [reflexivity | | now left].
  intros; apply H; now right.
Qed.

Lemma observed_flat_map {X I} (view : event -> list X) (g : I -> list event) (l : list I) :
  observed view (flat_map g l) = flat_map (fun i => observed view (g i)) l.
Proof.
  induction l as [|i l IH]; [reflexivity|].
  cbn [flat_map]. now rewrite observed_app, IH.
Qed.

Lemma prelude_2fa_returns page : exists b, snd (prelude_2fa page) = Ret b.
Proof.
  enough (wp code_of (prelude_2fa page) (fun _ r => exists b, r = Ret b)) as H by exact H.
  apply (wp_prelude_2fa code_of); [exact code_of_blind | eauto].
Qed.

Lemma prelude_2fa_codes page : codes (fst (prelude_2fa page)) = [].
Proof.
  enough (wp code_of (prelude_2fa page) (fun xs _ => xs = [])) as H by exact H.
  apply (wp_prelude_2fa code_of); [exact code_of_blind | reflexivity].
Qed.

(** C3: if attempt [n] (the Nth attempt, N = n + 1 <= MAX_2FA_RETRIES)
    reaches its check of the location, and that is the first check where
    the location no longer matches the two-factor pattern, then
    [handle_2fa_verification] returns success; the run consists of the
    prelude and the first N attempts and nothing else, N codes are
    generated, and the last attempt sleeps nothing after its settle
    wait. *)
Theorem success_at_nth_check page secret n :
  (n < MAX_2FA_RETRIES)%nat ->
  secret <> "" ->
  (forall a, (a <= n)%nat -> exists code, totp_now page secret a = inl code) ->
  (forall a, (a < n)%nat -> left_two_factor (url_after_submit page a) = false) ->
  reaches_check page n ->
  left_two_factor (url_after_submit page n) = true ->
  let r := handle_2fa_verification page (Some secret) in
  returns r true /\
  length (codes (fst r)) = (n + 1)%nat /\
  fst r = fst (prelude_2fa page) ++
          flat_map (fun a => fst (attempt_2fa page secret a)) (seq 0 (n + 1)) /\
  slept (fst (attempt_2fa page secret n)) = [1 # 2; 1 # 2; seconds WAIT_AFTER_2FA]%Q.
Proof.
  intros Hn Hsecret Hgen Hstay Hreach Hleft. cbv zeta.
  rewrite (handle_2fa_with_secret page secret Hsecret).
  assert (seq 0 MAX_2FA_RETRIES = seq 0 n ++ n :: seq (S n) (MAX_2FA_RETRIES - S n)) as Hseq.
  { replace MAX_2FA_RETRIES with (n + S (MAX_2FA_RETRIES - S n))%nat at 1 by lia.
    now rewrite seq_app. }
  destruct (Hgen n (Nat.le_refl n)) as [code Hcode].
  pose proof (attempt_2fa_accepted page secret n code Hcode Hreach Hleft) as [Hcodes Hret].
  assert (forall a, In a (seq 0 n) ->
            snd (attempt_2fa page secret a) = Ret None /\
            length (codes (fst (attempt_2fa page secret a))) = 1%nat) as Hbefore.
  { intros a Ha. apply in_seq in Ha.
    destruct (Hgen a) as [c Hc]; [lia|].
    destruct (attempt_2fa_rejected page secret a c Hc (Hstay a ltac:(lia))) as [Hx Hr].
    fold codes in Hx. rewrite Hx. split; [|reflexivity].
    destruct Hr as [Hr | [Ha2 _]]; [exact Hr|]. unfold MAX_2FA_RETRIES in Hn. lia. }
  rewrite Hseq, (for_each_stops _ _ _ _ _ true); [| intros; now apply Hbefore | exact Hret].
  destruct (prelude_2fa_returns page) as [b Hb].
  unfold returns. rewrite snd_bind, fst_bind, Hb. cbn [fst snd].
  replace (seq 0 (n + 1)) with (seq 0 n ++ [n]) by (now rewrite seq_app).
  repeat split.
  - unfold codes. rewrite observed_app, observed_flat_map. fold codes.
    rewrite prelude_2fa_codes. cbn [app].
    rewrite length_flat_map_singletons; [rewrite length_app, length_seq; reflexivity|].
    intros a Ha. apply in_app_or in Ha. destruct Ha as [Ha | [<- | []]].
    + now apply Hbefore.
    + fold codes. unfold codes. now rewrite Hcodes.
  - now apply attempt_2fa_accepted_sleeps with (code := code).
Qed.

Lemma three_codes_then_failure_witness :
  returns (handle_2fa_verification rejecting_page (Some "JBSWY3DPEHPK3PXP")) false /\
  codes (fst (handle_2fa_verification rejecting_page (Some "JBSWY3DPEHPK3PXP")))
  = ["000000"; "000001"; "000002"].
Proof.
  apply (three_codes_then_failure rejecting_page "JBSWY3DPEHPK3PXP").
  - discriminate.
  - reflexivity.
  - reflexivity.
  - reflexivity.
  - intros attempt. reflexivity.
Defined.

(** A secret that cannot be decoded ends the sub-protocol in the first
    attempt, before any code exists. *)
Lemma undecodable_secret_fails_at_once page secret e :
  secret <> "" ->
  totp_now page secret 0 = inr e ->
  returns (handle_2fa_verification page (Some secret)) false /\
  codes (fst (handle_2fa_verification page (Some secret))) = [].
Proof.
  intros Hsecret Hgen. rewrite (handle_2fa_with_secret page secret Hsecret).
  enough (wp code_of
            (prelude_2fa page ;;
             for_each (seq 0 MAX_2FA_RETRIES) (attempt_2fa page secret) retries_exhausted)
            (fun xs r => r = Ret false /\ xs = [])) as H by exact H.
  apply wp_bind, wp_prelude_2fa; [exact code_of_blind|]. intros _.
  cbn [MAX_2FA_RETRIES seq]. apply wp_for_each_cons.
  eapply wp_mono; [exact (attempt_2fa_undecodable _ _ _ _ Hgen)|].
  cbn beta. intros xs r [-> ->]. auto.
Qed.

(** C2, as stated, fails: with a secret pyotp cannot decode the
    sub-protocol returns failure in its first attempt and no code is
    generated, although the page never leaves the two-factor location. *)
Lemma three_codes_counterexample :
  let r := handle_2fa_verification undecodable_page (Some "not base32!") in
  stays_on_two_factor undecodable_page /\
  returns r false /\
  codes (fst r) = [] /\
  length (codes (fst r)) <> MAX_2FA_RETRIES.
Proof.
  cbv zeta. split; [intros attempt; reflexivity|].
  split; [vm_compute; reflexivity|].
  split; [vm_compute; reflexivity|].
  vm_compute. discriminate.
Qed.

Lemma success_at_nth_check_witness :
  let r := handle_2fa_verification second_try_page (Some "JBSWY3DPEHPK3PXP") in
  returns r true /\ length (codes (fst r)) = 2%nat.
Proof.
  cbv zeta.
  assert (reaches_check second_try_page 1) as Hreach.
  { unfold reaches_check. split; [vm_compute; discriminate|].
    split; [reflexivity|]. split; [reflexivity|].
    split; [left; vm_compute; reflexivity | intros msg; discriminate]. }
  assert (1 < MAX_2FA_RETRIES)%nat as Hn by (unfold MAX_2FA_RETRIES; repeat constructor).
  assert ("JBSWY3DPEHPK3PXP" <> "") as Hsecret by discriminate.
  assert (forall a, (a <= 1)%nat ->
            exists code, totp_now second_try_page "JBSWY3DPEHPK3PXP" a = inl code) as Hgen.
  { intros a _. eexists. reflexivity. }
  assert (forall a, (a < 1)%nat ->
            left_two_factor (url_after_submit second_try_page a) = false) as Hstay.
  { intros [|a] Ha; [reflexivity|]. exfalso. inversion Ha as [|m Hm]. inversion Hm. }
  assert (left_two_factor (url_after_submit second_try_page 1) = true) as Hleft
    by (vm_compute; reflexivity).
  pose proof (success_at_nth_check second_try_page "JBSWY3DPEHPK3PXP" 1
                Hn Hsecret Hgen Hstay Hreach Hleft) as H.
  cbv zeta in H. split; [exact (proj1 H) | exact (proj1 (proj2 H))].
Defined.

Lemma stdout_app (t1 t2 : list event) : stdout (t1 ++ t2) = stdout t1 ++ stdout t2.
Proof. apply observed_app. Qed.

(** C8: with the secret unset or empty, [handle_2fa_verification] returns
    failure right after its prelude: no code is generated and no attempt
    is opened.  It prints the missing-secret line and not the
    retries-exhausted line, whereas every run with a secret opens
    attempt 1, which this run never does: the two failures show
    different output. *)
Theorem missing_secret_fails_at_once page totp_secret :
  Py.truthy totp_secret = false ->
  let r := handle_2fa_verification page totp_secret in
  returns r false /\
  codes (fst r) = [] /\
  fst r = fst (prelude_2fa page) ++ fst missing_secret /\
  In missing_secret_line (stdout (fst r)) /\
  ~ In retries_exhausted_line (stdout (fst r)) /\
  (forall attempt, ~ In (attempt_line attempt) (stdout (fst r))) /\
  (forall page' secret, secret <> "" ->
     In (attempt_line 0) (stdout (fst (handle_2fa_verification page' (Some secret))))).
Proof.
  intros Hfalsy. cbv zeta.
  assert (handle_2fa_verification page totp_secret = (prelude_2fa page ;; missing_secret))
    as ->.
  { destruct totp_secret as [[|c s]|]; [reflexivity | discriminate | reflexivity]. }
  destruct (prelude_2fa_returns page) as [b Hb].
  unfold returns. rewrite snd_bind, fst_bind, Hb.
  split; [reflexivity|].
  split; [unfold codes; rewrite observed_app; fold codes; now rewrite prelude_2fa_codes|].
  split; [reflexivity|].
  rewrite stdout_app.
  split; [apply in_or_app; right; left; reflexivity|].
  assert (forall line, In line (stdout (fst (prelude_2fa page))) ->
            String.prefix "🔹 🔐" line = true \/ String.prefix "✅" line = true \/
            String.prefix "ℹ️" line = true \/ String.prefix "⚠️" line = true) as Hprelude.
  { unfold prelude_2fa, safe_screenshot.
    destruct (tf_screenshot page 0 "02_2fa_page.png"); cbn; intros line H.
    - destruct H as [<- | [<- | []]]; auto.
    - destruct H as [<- | [<- | [<- | []]]]; auto. }
  split; [|split].
  - intros H. apply in_app_or in H. destruct H as [H | H].
    + apply Hprelude in H. vm_compute in H. intuition discriminate.
    + vm_compute in H. intuition discriminate.
  - intros attempt H. apply in_app_or in H. destruct H as [H | H].
    + apply Hprelude in H. cbn in H. intuition discriminate.
    + cbn in H. intuition discriminate.
  - intros page' secret Hsecret.
    rewrite (handle_2fa_with_secret page' secret Hsecret).
    destruct (prelude_2fa_returns page') as [b' Hb'].
    rewrite fst_bind, Hb', stdout_app. apply in_or_app. right.
    cbn [MAX_2FA_RETRIES seq for_each]. rewrite fst_bind, stdout_app.
    apply in_or_app. left. unfold attempt_2fa at 1. rewrite fst_bind, stdout_app.
    apply in_or_app. left. left. reflexivity.
Qed.

Lemma missing_secret_fails_at_once_witness :
  returns (handle_2fa_verification rejecting_page None) false /\
  codes (fst (handle_2fa_verification rejecting_page None)) = [].
Proof.
  pose proof (missing_secret_fails_at_once rejecting_page None eq_refl) as H.
  cbv zeta in H. split; [exact (proj1 H) | exact (proj1 (proj2 H))].
Defined.


(** ** The helpers always return *)

Lemma mute_blind : blind mute.
Proof. now intros []. Qed.

Lemma wp_of_returns {X A} (view : event -> list X) (m : M A) a
  (K : list X -> result A -> Prop) :
  snd m = Ret a -> (forall xs, K xs (Ret a)) -> wp view m K.
Proof. intros H HK. unfold wp. rewrite H. apply HK. Qed.

Lemma bind_ret_eq {A B} (m : M A) (f : A -> M B) a :
  snd m = Ret a -> bind m f = (fst m ++ fst (f a), snd (f a)).
Proof.
  destruct m as [t r]. cbn [snd fst]. intros ->. cbn. now destruct (f a).
Qed.

Lemma bind_raise_eq {A B} (m : M A) (f : A -> M B) e :
  snd m = Raise e -> bind m f = (fst m, Raise e).
Proof. destruct m as [t r]. cbn [snd fst]. now intros ->. Qed.

Lemma fill_github_credentials_returns page username password :
  snd (fill_github_credentials page username password) = Ret (credentials_accepted page).
Proof.
  enough (wp mute (fill_github_credentials page username password)
            (fun _ r => r = Ret (credentials_accepted page))) as H by exact H.
  unfold fill_github_credentials, page_fill.
  repeat wp_step mute_blind.
  all: unfold credentials_accepted; cbn [forallb seq];
    repeat match goal with
           | H : _ = None |- _ => rewrite H
           | H : _ = Some _ |- _ => rewrite H
           | H : existsb _ _ = _ |- _ => rewrite H
           end;
    cbn [no_error andb]; try reflexivity.
Qed.

Lemma handle_device_verification_returns page :
  exists ok, snd (handle_device_verification page) = Ret ok.
Proof.
  pose proof (handle_device_verification_spec page) as H. unfold wp in H.
  destruct (find _ check_seconds); destruct H as [H _]; eauto.
Qed.

Lemma handle_oauth_authorization_returns page :
  exists ok, snd (handle_oauth_authorization page) = Ret ok.
Proof.
  enough (wp mute (handle_oauth_authorization page)
            (fun _ r => exists ok, r = Ret ok)) as H by exact H.
  unfold handle_oauth_authorization. repeat wp_step mute_blind; eauto.
Qed.

Lemma submit_code_raises_only_exceptions page attempt selector code :
  wp mute (submit_code page attempt selector code)
    (fun _ r => (exists o, r = Ret o) \/ exists e, r = Raise (Exception e)).
Proof.
  unfold submit_code. cbv zeta. repeat wp_step mute_blind; eauto.
Qed.

Lemma attempt_2fa_returns page secret attempt :
  exists o, snd (attempt_2fa page secret attempt) = Ret o.
Proof.
  enough (wp mute (attempt_2fa page secret attempt)
            (fun _ r => exists o, r = Ret o)) as H by exact H.
  unfold attempt_2fa.
  apply wp_bind, (wp_log_step _ mute_blind).
  destruct (totp_now page secret attempt) as [code|e].
  - apply wp_bind, wp_emit. apply wp_bind, (wp_log_step _ mute_blind).
    destruct (find_input _ _) as [selector|].
    + apply wp_bind, (wp_log_step _ mute_blind). apply wp_catch.
      eapply wp_mono; [apply submit_code_raises_only_exceptions|].
      cbn beta. intros xs r [[o ->] | [e ->]]; cbn beta iota; [eauto|].
      repeat wp_step mute_blind; eauto.
    + repeat wp_step mute_blind; eauto.
  - repeat wp_step mute_blind; eauto.
Qed.

Lemma for_each_returns {I A} (body : I -> M (option A)) after idx :
  (forall i, exists o, snd (body i) = Ret o) ->
  (exists v, snd after = Ret v) ->
  exists v, snd (for_each idx body after) = Ret v.
Proof.
  intros Hbody Hafter. induction idx as [|i idx IH]; cbn [for_each]; [exact Hafter|].
  rewrite snd_bind. destruct (Hbody i) as [[v|] ->]; [now exists v | exact IH].
Qed.

Lemma handle_2fa_verification_returns page totp_secret :
  exists ok, snd (handle_2fa_verification page totp_secret) = Ret ok.
Proof.
  unfold handle_2fa_verification. rewrite snd_bind.
  destruct (prelude_2fa_returns page) as [b ->].
  destruct totp_secret as [[|c s]|]; try (exists false; reflexivity).
  apply for_each_returns; [apply attempt_2fa_returns | exists false; reflexivity].
Qed.

(** ** Exit codes of [run_login] *)

(** One step of symbolic execution of [run_login]'s own steps. *)
Ltac run_step :=
  lazymatch goal with
  | |- wp _ (blocking ?o) _ => destruct o; [apply wp_ret | apply wp_raise | apply wp_raise]
  | |- wp _ (wait_for_load_state _ _) _ => unfold wait_for_load_state
  | |- wp _ (time_sleep _ _ _) _ => unfold time_sleep
  | |- wp _ (fill_github_credentials _ _ _) _ =>
      apply (wp_of_returns _ _ _ _ (fill_github_credentials_returns _ _ _)); intros _
  | |- wp _ (handle_device_verification ?p) _ =>
      let ok := fresh "ok" in let H := fresh "H" in
      destruct (handle_device_verification_returns p) as [ok H];
      apply (wp_of_returns _ _ _ _ H); intros _
  | |- wp _ (handle_2fa_verification ?p ?s) _ =>
      let ok := fresh "ok" in let H := fresh "H" in
      destruct (handle_2fa_verification_returns p s) as [ok H];
      apply (wp_of_returns _ _ _ _ H); intros _
  | |- wp _ (handle_oauth_authorization ?p) _ =>
      let ok := fresh "ok" in let H := fresh "H" in
      destruct (handle_oauth_authorization_returns p) as [ok H];
      apply (wp_of_returns _ _ _ _ H); intros _
  | |- wp _ (verify_login_success _) _ =>
      apply (wp_of_returns _ _ _ _ (verify_login_success_returns _)); intros _
  | |- _ => wp_step mute_blind
  end; cbn beta iota zeta.


Lemma snd_with_handlers w (m : M unit) :
  snd (with_handlers w m) =
  match snd m with
  | Ret a => Ret a
  | Raise KeyboardInterrupt => Raise (SystemExit 130)
  | Raise (Exception _) => Raise (SystemExit 1)
  | Raise (SystemExit code) => Raise (SystemExit code)
  end.
Proof.
  unfold with_handlers. rewrite snd_catch.
  destruct (snd m) as [a|[e| |code]]; try reflexivity.
  rewrite !snd_bind. cbn [snd log_step emit].
  now destruct (run_screenshot w "exception_error.png").
Qed.

(** With both credentials set, the run is the start-up, the [try]
    statement with its handlers, and [browser.close()]. *)
Lemma run_login_with_credentials env w username password :
  GH_USERNAME env = Some username -> username <> "" ->
  GH_PASSWORD env = Some password -> password <> "" ->
  let flow := with_handlers w (login_flow w username password (GH_2FA_SECRET env)) in
  fst (run_login env w) = fst (startup env) ++ fst flow ++ [CloseBrowser] /\
  snd (run_login env w) = snd flow.
Proof.
  intros Hu Hune Hp Hpne. cbv zeta. unfold run_login, startup. rewrite Hu, Hp.
  destruct username as [|c u]; [contradiction|].
  destruct password as [|c' p]; [contradiction|].
  destruct (with_handlers w _) as [t r]. cbn.
  split; reflexivity.
Qed.

Lemma try_click_returns page selectors description :
  snd (try_click page selectors description) =
  Ret (existsb (fun selector => is_clicked (page selector)) selectors).
Proof.
  enough (wp mute (try_click page selectors description)
            (fun _ r => r = Ret (existsb (fun selector => is_clicked (page selector))
                                   selectors))) as H by exact H.
  now apply (wp_try_click _ mute_blind).
Qed.

Lemma step4_github_button_fatal w :
  existsb (fun selector => is_clicked (github_button w selector))
    github_button_selectors = false ->
  Py.str_in "signin" (Py.lower (url_no_button w)) = true ->
  snd (step4_github_button w) = Raise (SystemExit 1).
Proof.
  intros Hbutton Hsignin. unfold step4_github_button.
  rewrite !snd_bind. cbn [snd log_step emit]. rewrite try_click_returns, Hbutton, Hsignin.
  cbn [negb]. rewrite !snd_bind. cbn [snd log_step emit].
  now destruct (run_screenshot w "error_no_github_button.png").
Qed.

Lemma step6_github_login_fatal w username password current_url :
  on_login_form current_url = true ->
  credentials_accepted (credentials_page w) = false ->
  step6_github_login w username password current_url =
  (fst (fill_github_credentials (credentials_page w) username password) ++
   [Stdout (log_line "GitHub 登录失败" ERROR)], Raise (SystemExit 1)).
Proof.
  intros Hon Hfail. unfold step6_github_login. rewrite Hon.
  pose proof (fill_github_credentials_returns (credentials_page w) username password) as H.
  rewrite Hfail in H. now rewrite (bind_ret_eq _ _ _ H).
Qed.




Lemma snd_run_login env w :
  snd (run_login env w) =
  match GH_USERNAME env, GH_PASSWORD env with
  | Some (String _ _ as username), Some (String _ _ as password) =>
      snd (with_handlers w (login_flow w username password (GH_2FA_SECRET env)))
  | _, _ => Raise (SystemExit 1)
  end.
Proof.
  unfold run_login.
  destruct (GH_USERNAME env) as [[|c u]|], (GH_PASSWORD env) as [[|c' p]|];
    try reflexivity.
  now destruct (with_handlers w _) as [t r].
Qed.


(** ** A lookup that raises counts as an element not found *)

Lemma bind_ext {A B} (m m' : M A) (f f' : A -> M B) :
  m = m' -> (forall a, f a = f' a) -> bind m f = bind m' f'.
Proof.
  intros <- Hf. destruct m as [t [a|e]]; cbn [bind]; [|reflexivity].
  now rewrite Hf.
Qed.


















(** ** Missing credentials *)

(** C5: when the username or the password is unset or empty,
    [run_login] prints the missing-credentials lines right after its
    configuration check and exits with status 1; the run launches no
    browser, opens no page and does not sleep. *)
Theorem missing_credentials_exit_before_browser (env : Environ) (w : World) :
  Py.truthy (GH_USERNAME env) = false \/ Py.truthy (GH_PASSWORD env) = false ->
  let r := run_login env w in
  snd r = Raise (SystemExit 1) /\
  exit_status (snd r) = 1%Z /\
  browser_events (fst r) = [] /\
  slept (fst r) = [] /\
  stdout (fst r) =
  stdout (fst (banner_lines ;; config_check env)) ++ missing_credentials_lines.
Proof.
  intros Hmissing. cbv zeta.
  destruct env as [user pass secret]. cbn [GH_USERNAME GH_PASSWORD] in Hmissing.
  destruct user as [[|c u]|], pass as [[|c' p]|];
    try (destruct Hmissing; discriminate);
    repeat split; reflexivity.
Qed.

Lemma missing_credentials_exit_before_browser_witness :
  snd (run_login no_credentials stuck_at_login) = Raise (SystemExit 1) /\
  browser_events (fst (run_login no_credentials stuck_at_login)) = [].
Proof.
  pose proof (missing_credentials_exit_before_browser no_credentials stuck_at_login
                (or_introl eq_refl)) as H.
  cbv zeta in H. split; [exact (proj1 H) | exact (proj1 (proj2 (proj2 H)))].
Defined.

(** ** The credential form *)

Lemma credentials_rejected page :
  wait_login_field page <> None \/
  (exists k, (k < 4)%nat /\ fill_raises page k <> None) \/
  existsb (fun selector => is_clicked (cred_submit page selector))
    credential_submit_selectors = false ->
  credentials_accepted page = false.
Proof.
  unfold credentials_accepted. intros [Hwait | [[k [Hk Hfill]] | Hsubmit]].
  - destruct (wait_login_field page); [reflexivity | contradiction].
  - destruct (forallb _ (seq 0 4)) eqn:Hall.
    + rewrite forallb_forall in Hall. specialize (Hall k).
      destruct (fill_raises page k); [|contradiction].
      discriminate Hall. apply in_seq. lia.
    + now rewrite andb_false_r.
  - rewrite Hsubmit. apply andb_false_r.
Qed.

(** C10: once the run reaches the credential form, it is fatal not only
    that no submit control is found but also that the wait for the
    username field raises or that any of the four fills raises: in each
    case [fill_github_credentials] returns failure, and [run_login]
    prints one more line, closes the browser and exits with status 1,
    with no later step run. *)
Theorem credential_failure_is_fatal env w username password url5 :
  credentials_given env username password ->
  returns (reach_github w) url5 ->
  on_login_form url5 = true ->
  wait_login_field (credentials_page w) <> None \/
  (exists k, (k < 4)%nat /\ fill_raises (credentials_page w) k <> None) \/
  existsb (fun selector => is_clicked (cred_submit (credentials_page w) selector))
    credential_submit_selectors = false ->
  let form := fill_github_credentials (credentials_page w) username password in
  returns form false /\
  snd (run_login env w) = Raise (SystemExit 1) /\
  exit_status (snd (run_login env w)) = 1%Z /\
  fst (run_login env w) =
  fst (startup env) ++ fst (reach_github w) ++ fst form ++
  [Stdout (log_line "GitHub 登录失败" ERROR); CloseBrowser].
Proof.
  intros (Hu & Hune & Hp & Hpne) H5 Hon Hfailure. cbv zeta.
  apply credentials_rejected in Hfailure.
  destruct (run_login_with_credentials env w username password Hu Hune Hp Hpne)
    as [Hfst Hsnd].
  assert (login_flow w username password (GH_2FA_SECRET env) =
          (fst (reach_github w) ++
           fst (fill_github_credentials (credentials_page w) username password) ++
           [Stdout (log_line "GitHub 登录失败" ERROR)], Raise (SystemExit 1))) as Hflow.
  { unfold login_flow. rewrite (bind_ret_eq _ _ _ H5).
    rewrite (bind_raise_eq _ _ (SystemExit 1));
      now rewrite (step6_github_login_fatal w username password url5 Hon Hfailure). }
  rewrite Hflow in Hfst, Hsnd. cbn [with_handlers catch fst snd] in Hfst, Hsnd.
  unfold returns. rewrite fill_github_credentials_returns, Hfailure, Hsnd, Hfst.
  repeat split. now rewrite <- !app_assoc.
Qed.

Lemma credential_failure_is_fatal_witness :
  returns (fill_github_credentials no_login_field "octocat" "hunter2") false /\
  snd (run_login some_credentials stuck_at_login) = Raise (SystemExit 1).
Proof.
  assert (credentials_given some_credentials "octocat" "hunter2") as Hgiven
    by (repeat split; (reflexivity || discriminate)).
  assert (returns (reach_github stuck_at_login) "https://github.com/login?client_id=x")
    as H5 by (vm_compute; reflexivity).
  assert (on_login_form "https://github.com/login?client_id=x" = true) as Hon
    by (vm_compute; reflexivity).
  assert (wait_login_field (credentials_page stuck_at_login) <> None) as Hwait
    by discriminate.
  pose proof (credential_failure_is_fatal some_credentials stuck_at_login
                "octocat" "hunter2" _ Hgiven H5 Hon (or_introl Hwait)) as H.
  cbv zeta in H. split; [exact (proj1 H) | exact (proj1 (proj2 H))].
Defined.

(** * Further properties *)

(** ** Rules for [every] *)

Section EveryRules.

Context (P : event -> Prop).

Lemma every_ret {A} (a : A) : every P (ret a).
Proof. constructor. Qed.

Lemma every_raise {A} (e : exn) : every P (@raise A e).
Proof. constructor. Qed.

Lemma every_emit (e : event) : P e -> every P (emit e).
Proof. intros H. repeat constructor. exact H. Qed.

Lemma every_bind {A B} (m : M A) (f : A -> M B) :
  every P m -> (forall a, snd m = Ret a -> every P (f a)) -> every P (bind m f).
Proof.
  unfold every. rewrite fst_bind. intros Hm Hf. apply Forall_app. split; [exact Hm|].
  destruct (snd m); [now apply Hf | constructor].
Qed.

Lemma every_catch {A} (m : M A) handler :
  every P m -> (forall e h, handler e = Some h -> every P h) ->
  every P (catch m handler).
Proof.
  unfold every. rewrite fst_catch. intros Hm Hh. apply Forall_app. split; [exact Hm|].
  destruct (snd m) as [a|e]; [constructor|].
  destruct (handler e) as [h|] eqn:He; [now apply (Hh e) | constructor].
Qed.

Lemma every_try_finally {A} (m : M A) fin :
  every P m -> every P fin -> every P (try_finally m fin).
Proof.
  unfold every. rewrite fst_try_finally. intros. now apply Forall_app.
Qed.

Lemma every_try_except {A} (m : M A) (handler : error -> M A) :
  every P m -> (forall err, every P (handler err)) -> every P (try_except m handler).
Proof.
  unfold every, try_except. rewrite fst_catch. intros Hm Hh.
  apply Forall_app. split; [exact Hm|].
  destruct (snd m) as [a|[err| |code]]; try constructor. apply Hh.
Qed.

Lemma every_try_except_timeout (m handler : M unit) :
  every P m -> every P handler -> every P (try_except_timeout m handler).
Proof.
  unfold every, try_except_timeout. rewrite fst_catch. intros Hm Hh.
  apply Forall_app. split; [exact Hm|].
  destruct (snd m) as [a|[[msg|msg]| |code]]; try constructor. exact Hh.
Qed.

Lemma every_for_each {I A} (body : I -> M (option A)) after idx :
  (forall i, In i idx -> every P (body i)) -> every P after ->
  every P (for_each idx body after).
Proof.
  intros Hbody Hafter. induction idx as [|i idx IH]; cbn [for_each]; [exact Hafter|].
  apply every_bind; [apply Hbody; now left|].
  intros [v|] _; [apply every_ret | apply IH; intros; apply Hbody; now right].
Qed.

Hypothesis P_stdout : forall line, P (Stdout line).

Lemma every_log_step msg l : every P (log_step msg l).
Proof. apply every_emit, P_stdout. Qed.

Lemma every_print line : every P (print line).
Proof. apply every_emit, P_stdout. Qed.

Lemma every_scan_errors page selectors : every P (scan_errors page selectors).
Proof.
  induction selectors as [|s rest IH]; cbn [scan_errors]; [apply every_ret|].
  destruct (page s); auto using every_log_step, every_ret.
Qed.

Hypothesis P_screenshot : forall path, P (Screenshot path).

Lemma every_safe_screenshot shot filename description :
  every P (safe_screenshot shot filename description).
Proof.
  unfold safe_screenshot. destruct shot.
  - apply every_bind; [apply every_log_step | intros; apply every_ret].
  - apply every_bind; [apply every_emit, P_screenshot | intros _ _].
    apply every_bind; [apply every_log_step | intros _ _].
    apply every_bind; [|intros; apply every_ret].
    destruct (String.eqb description ""); [apply every_ret | apply every_log_step].
Qed.

Lemma every_try_click page selectors description :
  (forall s, In s selectors -> P (Click s)) ->
  every P (try_click page selectors description).
Proof.
  intros H. induction selectors as [|s rest IH]; cbn [try_click].
  - apply every_bind; [apply every_log_step | intros; apply every_ret].
  - destruct (page s); try (apply IH; intros; apply H; now right).
    apply every_bind; [apply every_emit, H; now left | intros _ _].
    apply every_bind; [apply every_log_step | intros; apply every_ret].
Qed.

Lemma every_click_submit page selectors :
  (forall s, In s selectors -> P (Click s)) ->
  every P (click_submit page selectors).
Proof.
  intros H. induction selectors as [|s rest IH]; cbn [click_submit]; [apply every_ret|].
  destruct (page s); try (apply IH; intros; apply H; now right).
  apply every_bind; [apply every_emit, H; now left | intros _ _].
  apply every_bind; [apply every_log_step | intros; apply every_ret].
Qed.

End EveryRules.

Lemma every_mono {A} (P Q : event -> Prop) (m : M A) :
  (forall e, P e -> Q e) -> every P m -> every Q m.
Proof. intros H. apply Forall_impl, H. Qed.

(** One step of a proof that every event of a computation satisfies a
    property; [tac] proves the property of a single event. *)
Ltac every_step tac :=
  lazymatch goal with
  | |- every _ (bind _ _) => apply every_bind; [|intros ? ?]
  | |- every _ (ret _) => apply every_ret
  | |- every _ (raise _) => apply every_raise
  | |- every _ (sys_exit _) => apply every_raise
  | |- every _ (log_step _ _) => apply every_log_step; intros ?; tac
  | |- every _ (print _) => apply every_print; intros ?; tac
  | |- every _ (safe_screenshot _ _ _) =>
      apply every_safe_screenshot; intros ?; tac
  | |- every _ (scan_errors _ _) => apply every_scan_errors; intros ?; tac
  | |- every _ (click_submit _ _) =>
      apply every_click_submit; [intros ?; tac | intros ? ?; tac]
  | |- every _ (try_click _ _ _) =>
      apply every_try_click; [intros ?; tac | intros ? ?; tac]
  | |- every _ (sleep _) => apply every_emit; tac
  | |- every _ (emit _) => apply every_emit; tac
  | |- every _ (may_raise ?o) => destruct o; [apply every_raise | apply every_ret]
  | |- every _ (blocking ?o) =>
      destruct o; [apply every_ret | apply every_raise | apply every_raise]
  | |- every _ (time_sleep _ _ _) => unfold time_sleep
  | |- every _ (wait_for_load_state _ _) => unfold wait_for_load_state
  | |- every _ (try_except_timeout _ _) => apply every_try_except_timeout
  | |- every _ (try_except _ _) => apply every_try_except; [|intros ?]
  | |- every _ (if ?b then _ else _) => destruct b eqn:?
  | |- every _ (match ?x with _ => _ end) => destruct x eqn:?
  end.

(** ** try_click *)

(** X1: [try_click] clicks the first selector of its list that is visible and
    takes the click, clicks nothing else, and returns True; when no
    selector of the list can be clicked it touches nothing and returns
    False.  A selector whose lookup raises counts as not clickable. *)
Theorem try_click_clicks_first_clickable page selectors description :
  let r := try_click page selectors description in
  match find (fun selector => is_clicked (page selector)) selectors with
  | Some selector => returns r true /\ browser_events (fst r) = [Click selector]
  | None => returns r false /\ browser_events (fst r) = []
  end.
Proof.
  cbv zeta. induction selectors as [|s rest IH]; cbn [try_click find].
  - split; reflexivity.
  - destruct (page s); cbn [is_clicked]; try exact IH.
    split; reflexivity.
Qed.

(** ** Footprints of the helpers *)

Lemma find_input_In visible selectors selector :
  find_input visible selectors = Some selector -> In selector selectors.
Proof.
  induction selectors as [|s rest IH]; cbn [find_input]; [discriminate|].
  destruct (visible s) as [[|]|]; intros H.
  - injection H as <-. now left.
  - right. auto.
  - right. auto.
Qed.

Lemma fill_github_credentials_footprint page username password :
  every (credential_footprint username password)
    (fill_github_credentials page username password).
Proof.
  unfold fill_github_credentials, page_fill.
  repeat every_step ltac:(cbn; auto).
Qed.

Lemma verify_login_success_footprint page : every prints_only (verify_login_success page).
Proof.
  unfold verify_login_success. cbv zeta.
  repeat every_step ltac:(cbn; auto).
Qed.

Lemma handle_oauth_authorization_footprint page :
  every oauth_footprint (handle_oauth_authorization page).
Proof.
  unfold handle_oauth_authorization.
  repeat every_step ltac:(cbn; auto).
Qed.

Lemma handle_device_verification_footprint page :
  every device_footprint (handle_device_verification page).
Proof.
  unfold handle_device_verification.
  repeat every_step ltac:(cbn; auto).
  apply every_for_each.
  - intros i _. unfold poll_device. cbv zeta.
    repeat every_step ltac:(cbn; auto).
  - cbv zeta.
    repeat every_step ltac:(cbn; auto).
Qed.

Lemma attempt_2fa_footprint page secret attempt :
  (attempt < MAX_2FA_RETRIES)%nat ->
  every (two_factor_footprint page (Some secret)) (attempt_2fa page secret attempt).
Proof.
  intros Hattempt. unfold attempt_2fa.
  every_step ltac:(cbn; auto).
  { every_step ltac:(cbn; auto). }
  destruct (totp_now page secret attempt) as [code|e] eqn:Hgen.
  2: { repeat every_step ltac:(cbn; auto). }
  assert (generated page (Some secret) code) as Hcode
    by (exists secret, attempt; auto).
  destruct (find_input _ _) as [selector|] eqn:Hfind.
  - apply find_input_In in Hfind.
    unfold submit_code. cbv zeta.
    repeat every_step ltac:(cbn; auto 6).
    all: cbn; try (right; right; right; exists attempt; split;
                   [now apply Nat.ltb_lt | reflexivity]).
  - repeat every_step ltac:(cbn; auto 6).
Qed.

Lemma handle_2fa_verification_footprint page totp_secret :
  every (two_factor_footprint page totp_secret) (handle_2fa_verification page totp_secret).
Proof.
  unfold handle_2fa_verification, prelude_2fa, missing_secret, retries_exhausted.
  every_step ltac:(cbn; auto).
  { repeat every_step ltac:(cbn; auto). }
  destruct totp_secret as [[|c s]|].
  1,3: repeat every_step ltac:(cbn; auto).
  apply every_for_each.
  - intros attempt Hin. apply in_seq in Hin. apply attempt_2fa_footprint. lia.
  - repeat every_step ltac:(cbn; auto).
Qed.

(** ** Footprint of a run *)

Lemma reach_github_result w url :
  snd (reach_github w) = Ret url -> url = url_after_click w.
Proof.
  enough (wp mute (reach_github w)
            (fun _ r => forall url, r = Ret url -> url = url_after_click w)) as H
    by (intros Hr; exact (H url Hr)).
  unfold reach_github, step3_visit, step4_github_button, step5_wait_github.
  repeat run_step.
  all: intros url' Hr; try discriminate; now injection Hr as <-.
Qed.

(** One step for the steps of [run_login]: a helper stays within its own
    footprint. *)
Ltac flow_step :=
  lazymatch goal with
  | |- every _ (fill_github_credentials _ _ _) =>
      eapply every_mono; [|apply fill_github_credentials_footprint]
  | |- every _ (handle_device_verification _) =>
      eapply every_mono; [|apply handle_device_verification_footprint]
  | |- every _ (handle_2fa_verification _ _) =>
      eapply every_mono; [|apply handle_2fa_verification_footprint]
  | |- every _ (handle_oauth_authorization _) =>
      eapply every_mono; [|apply handle_oauth_authorization_footprint]
  | |- every _ (verify_login_success _) =>
      eapply every_mono; [|apply verify_login_success_footprint]
  | |- _ => every_step ltac:(try (left; cbn; now auto))
  end.

Lemma login_flow_footprint w username password totp_secret :
  every (flow_footprint w username password totp_secret)
    (login_flow w username password totp_secret).
Proof.
  unfold login_flow.
  apply every_bind.
  { unfold reach_github, step3_visit, step4_github_button, step5_wait_github.
    repeat flow_step. all: left; cbn; auto. }
  intros url5 H5. apply reach_github_result in H5. subst url5.
  unfold step6_github_login, step7_device, step8_two_factor, step9_oauth,
    step10_final_wait, step11_verify.
  repeat flow_step.
  all: try (left; cbn; now auto).
  - intros e He. right. left. split; assumption.
  - intros e He. right. right. left. exact He.
  - intros e He. right. right. right. left. exact He.
  - intros e He. right. right. right. right. exact He.
  - intros [] He; try contradiction. left. exact I.
Qed.

Lemma some_eq {A} (x y : A) : Some x = Some y -> x = y.
Proof. now intros [= ->]. Qed.

Lemma with_handlers_every (P : event -> Prop) w (m : M unit) :
  (forall line, P (Stdout line)) -> (forall path, P (Screenshot path)) ->
  (forall e, P (Stderr_traceback e)) ->
  every P m -> every P (with_handlers w m).
Proof.
  intros Hout Hshot Htrace Hm. unfold with_handlers. apply every_catch; [exact Hm|].
  intros [e| |code] h Hh; try discriminate; apply some_eq in Hh; subst h.
  - repeat every_step ltac:(auto).
  - repeat every_step ltac:(auto).
Qed.

Lemma run_login_every (P : event -> Prop) env w :
  (forall line, P (Stdout line)) ->
  P Launch -> P NewContext -> P NewPage -> P CloseBrowser ->
  (forall username password,
     credentials_given env username password ->
     every P (with_handlers w (login_flow w username password (GH_2FA_SECRET env)))) ->
  every P (run_login env w).
Proof.
  intros Hout H1 H2 H3 H4 Hflow.
  assert (every P banner_lines) as Hbanner
    by (unfold banner_lines; repeat every_step ltac:(auto)).
  assert (every P (config_check env)) as Hconfig
    by (unfold config_check; repeat every_step ltac:(auto)).
  unfold run_login.
  apply every_bind; [exact Hbanner | intros _ _].
  apply every_bind; [exact Hconfig | intros _ _].
  destruct (GH_USERNAME env) as [[|c u]|] eqn:Hu;
    [repeat every_step ltac:(auto) | | repeat every_step ltac:(auto)].
  destruct (GH_PASSWORD env) as [[|c' p]|] eqn:Hp;
    [repeat every_step ltac:(auto) | | repeat every_step ltac:(auto)].
  repeat every_step ltac:(auto).
  apply every_try_finally; [|now apply every_emit].
  apply Hflow. repeat split; (assumption || discriminate).
Qed.

Lemma window_sleep_in_bounds now :
  (1 # 2 <= sleep_until_next_window now /\ sleep_until_next_window now <= 32)%Q.
Proof.
  unfold sleep_until_next_window. pose proof (fmod_30_range now). split; lra.
Qed.

Lemma flow_sleeps_in_bounds w username password totp_secret e :
  flow_footprint w username password totp_secret e -> sleeps_in_bounds e.
Proof.
  destruct e; try exact (fun _ => I). cbn.
  intros [[-> | [-> | ->]] | [[_ []] | [-> | [[-> | [-> | [-> | [a [_ ->]]]]] | ->]]]];
    try (split; vm_compute; discriminate).
  apply window_sleep_in_bounds.
Qed.

(** X2: whatever the environment and the browser answer, every
    [time.sleep] of a run lasts at least half a second and at most 32
    seconds. *)
Theorem every_sleep_within_bounds (env : Environ) (w : World) :
  Forall (fun secs => (1 # 2 <= secs /\ secs <= 32)%Q) (slept (fst (run_login env w))).
Proof.
  assert (every sleeps_in_bounds (run_login env w)) as H.
  { apply run_login_every; try exact I; [intros; exact I|].
    intros username password _.
    apply with_handlers_every; try (intros; exact I).
    eapply every_mono; [apply flow_sleeps_in_bounds | apply login_flow_footprint]. }
  unfold every in H. unfold slept, observed.
  induction H as [|e t He Ht IH]; [constructor|].
  cbn [flat_map]. apply Forall_app. split; [|exact IH].
  destruct e; cbn; auto.
Qed.

Lemma observed_nil_of_every {X} (view : event -> list X) (t : list event) :
  Forall (fun e => view e = []) t -> observed view t = [].
Proof.
  induction 1 as [|e t He Ht IH]; [reflexivity|].
  unfold observed in *. cbn [flat_map]. now rewrite He, IH.
Qed.

Lemma flow_inside_session w username password totp_secret e :
  flow_footprint w username password totp_secret e -> inside_session e.
Proof.
  unfold inside_session.
  destruct e; try reflexivity;
    intros [H | [[_ H] | [H | [H | H]]]]; contradiction.
Qed.

(** ** The browser is closed once the page is open *)

Lemma run_login_session_works env w :
  run_login_session browser_works env w = run_login env w.
Proof.
  unfold run_login_session, run_login.
  apply bind_ext; [reflexivity | intros _].
  apply bind_ext; [reflexivity | intros _].
  destruct (GH_USERNAME env) as [[|c username]|]; try reflexivity.
  destruct (GH_PASSWORD env) as [[|c' password]|]; try reflexivity.
  apply bind_ext; [reflexivity | intros _].
  apply bind_ext; [reflexivity | intros _].
  destruct (with_handlers w _) as [t r]. reflexivity.
Qed.

(** What the start-up shows of the browser: the calls that completed. *)
Lemma start_browser_lifecycle b :
  match snd (start_browser b) with
  | Ret _ => observed lifecycle (fst (start_browser b)) = [Launch; NewContext; NewPage]
  | Raise _ =>
      exists k, (k < 3)%nat /\
        observed lifecycle (fst (start_browser b)) = firstn k [Launch; NewContext; NewPage]
  end /\
  ~ In CloseBrowser (fst (start_browser b)).
Proof.
  unfold start_browser.
  destruct (playwright_outcome b); cbn;
    [|split; [exists 0%nat; split; [lia|reflexivity] | tauto]..].
  destruct (launch_outcome b); cbn;
    [|split; [exists 0%nat; split; [lia|reflexivity] | tauto]..].
  destruct (new_context_outcome b); cbn;
    [|split; [exists 1%nat; split; [lia|reflexivity] | intuition discriminate]..].
  destruct (new_page_outcome b); cbn;
    [|split; [exists 2%nat; split; [lia|reflexivity] | intuition discriminate]..].
  split; [reflexivity | intuition discriminate].
Qed.

(** With both credentials set, a run is the lines of the start, the
    start-up of the browser and, when that completes, the [try] statement
    with its handlers and [browser.close()]. *)
Lemma run_login_session_with_credentials b env w username password :
  credentials_given env username password ->
  let run := run_login_session b env w in
  let flow := with_handlers w (login_flow w username password (GH_2FA_SECRET env)) in
  exists lines,
    Forall (fun e => lifecycle e = [] /\ e <> CloseBrowser) lines /\
    match snd (start_browser b) with
    | Ret _ =>
        fst run = lines ++ fst (start_browser b) ++ fst flow ++ [CloseBrowser]
    | Raise e =>
        fst run = lines ++ fst (start_browser b) /\ snd run = Raise e
    end.
Proof.
  intros (Hu & Hune & Hp & Hpne). cbv zeta.
  destruct username as [|c u]; [contradiction|].
  destruct password as [|c' p]; [contradiction|].
  exists (fst (banner_lines ;; config_check env ;; print "" ;;
               log_step "启动浏览器..." STEP)).
  split.
  - cbn [banner_lines config_check print log_step emit bind fst app].
    repeat constructor; discriminate.
  - unfold run_login_session, close_browser. rewrite Hu, Hp.
    destruct (start_browser b) as [ts [[]|e]];
      destruct (with_handlers w _) as [t r]; destruct (close_outcome b);
      cbn [banner_lines config_check print log_step emit bind fst snd app
           try_finally_raising close_browser blocking ret raise];
      rewrite ?app_nil_r, <- ?app_assoc; try split; reflexivity.
Qed.

(** X3: a run without credentials never starts the browser.  With
    credentials, when Playwright, the launch, the new context and the new
    page all complete, the run has launched the browser and opened one
    context and one page, once each and in this order, and it calls
    [browser.close()] as the last thing it does, on every path out of the
    [try] statement: normal return, [sys.exit], exception or interrupt.
    When one of the four start-up calls raises or is interrupted, the run
    ends with that exception, having started what the calls before it
    started, and [browser.close()] is not called.  [run_login] is the run
    of a browser that starts and closes without failure. *)
Theorem browser_closed_once_page_is_open (b : Browser) (env : Environ) (w : World) :
  let run := run_login_session b env w in
  run_login_session browser_works env w = run_login env w /\
  (Py.truthy (GH_USERNAME env) = false \/ Py.truthy (GH_PASSWORD env) = false ->
   observed lifecycle (fst run) = []) /\
  forall username password,
    credentials_given env username password ->
    match snd (start_browser b) with
    | Ret _ =>
        observed lifecycle (fst run) = [Launch; NewContext; NewPage; CloseBrowser] /\
        exists body, fst run = body ++ [CloseBrowser]
    | Raise e =>
        snd run = Raise e /\
        ~ In CloseBrowser (fst run) /\
        exists k, (k < 3)%nat /\
          observed lifecycle (fst run) = firstn k [Launch; NewContext; NewPage]
    end.
Proof.
  cbv zeta. split; [apply run_login_session_works|]. split.
  - intros Hmissing. unfold run_login_session.
    destruct (GH_USERNAME env) as [[|c u]|]; try reflexivity.
    destruct (GH_PASSWORD env) as [[|c' p]|]; try reflexivity.
    destruct Hmissing; discriminate.
  - intros username password Hgiven.
    destruct (run_login_session_with_credentials b env w username password Hgiven)
      as (lines & Hlines & Hrun).
    cbv zeta in Hrun.
    assert (observed lifecycle lines = []) as Hquiet.
    { apply observed_nil_of_every. eapply Forall_impl; [|exact Hlines].
      intros e [He _]. exact He. }
    destruct (start_browser_lifecycle b) as [Hstart Hopen].
    destruct (snd (start_browser b)) as [[]|e].
    + rewrite Hrun. split.
      * rewrite !observed_app, Hquiet, Hstart.
        rewrite (observed_nil_of_every lifecycle
                   (fst (with_handlers w (login_flow w username password
                                            (GH_2FA_SECRET env))))).
        -- reflexivity.
        -- apply with_handlers_every; try reflexivity.
           eapply every_mono; [apply flow_inside_session | apply login_flow_footprint].
      * eexists. now rewrite !app_assoc.
    + destruct Hrun as [Hfst Hsnd]. split; [exact Hsnd|]. rewrite Hfst. split.
      * intros Hin. apply in_app_or in Hin. destruct Hin as [Hin | Hin]; [|auto].
        rewrite Forall_forall in Hlines. now destruct (Hlines _ Hin).
      * destruct Hstart as (k & Hk & Hstart). exists k. split; [exact Hk|].
        now rewrite observed_app, Hquiet, Hstart.
Qed.

Lemma browser_closed_once_page_is_open_witness :
  snd (run_login_session context_fails some_credentials accepted_at_login) =
    Raise (Exception (OtherError "Target page, context or browser has been closed")) /\
  ~ In CloseBrowser (fst (run_login_session context_fails some_credentials accepted_at_login)) /\
  exists k, (k < 3)%nat /\
    observed lifecycle (fst (run_login_session context_fails some_credentials
                               accepted_at_login)) =
    firstn k [Launch; NewContext; NewPage].
Proof.
  assert (credentials_given some_credentials "octocat" "hunter2") as H
    by (repeat split; (reflexivity || discriminate)).
  exact (proj2 (proj2 (browser_closed_once_page_is_open context_fails some_credentials
                         accepted_at_login)) "octocat" "hunter2" H).
Defined.

Lemma flow_types_where_it_belongs w username password totp_secret e :
  flow_footprint w username password totp_secret e ->
  typed_where_it_belongs w username password totp_secret e.
Proof.
  destruct e; try exact (fun _ => I).
  intros [H | [[Hon H] | [H | [[Hs Hc] | H]]]]; try contradiction.
  - left. split; assumption.
  - right. split; assumption.
Qed.

(** X4: when both credentials are set, a run types the username only into
    [#login_field] and the password only into [#password], and only when
    the location after the provider button is the login form; all it
    types elsewhere is a generated code into a two-factor input, and no
    two-factor input selector is one of the two credential fields. *)
Theorem credentials_typed_only_on_login_form env w username password :
  credentials_given env username password ->
  Forall (typed_where_it_belongs w username password (GH_2FA_SECRET env))
    (fst (run_login env w)) /\
  ~ In "#login_field" input_selectors /\ ~ In "#password" input_selectors.
Proof.
  intros (Hu & Hune & Hp & Hpne). split.
  - apply run_login_every; try exact I; [intros; exact I|].
    intros u p (Hu' & _ & Hp' & _).
    assert (u = username) as -> by congruence.
    assert (p = password) as -> by congruence.
    apply with_handlers_every; try (intros; exact I).
    eapply every_mono; [apply flow_types_where_it_belongs | apply login_flow_footprint].
  - split; cbn; intuition discriminate.
Qed.

Lemma credentials_typed_only_on_login_form_witness :
  Forall (typed_where_it_belongs accepted_at_login "octocat" "hunter2"
            (Some "JBSWY3DPEHPK3PXP"))
    (fst (run_login some_credentials accepted_at_login)) /\
  ~ In "#login_field" input_selectors /\ ~ In "#password" input_selectors.
Proof.
  assert (credentials_given some_credentials "octocat" "hunter2") as H
    by (repeat split; (reflexivity || discriminate)).
  exact (credentials_typed_only_on_login_form some_credentials accepted_at_login
           "octocat" "hunter2" H).
Defined.

(** X5: [handle_2fa_verification] generates codes from the given secret
    only, clears, fills and presses Enter on its own input selectors
    only, types nothing but a generated code, clicks its own submit
    selectors only, and sleeps half a second, the settle time, three
    seconds or the time to the next code window; besides printing and
    screenshots it does nothing else. *)
Theorem two_factor_touches_only_its_selectors page totp_secret :
  Forall (two_factor_footprint page totp_secret)
    (fst (handle_2fa_verification page totp_secret)).
Proof. apply handle_2fa_verification_footprint. Qed.

(** ** Outcomes of the two-factor sub-protocol *)

Lemma submit_code_outcomes page attempt selector code :
  wp code_of (submit_code page attempt selector code)
    (fun xs r =>
       xs = [] /\
       (r = Ret None \/
        (r = Ret (Some true) /\ left_two_factor (url_after_submit page attempt) = true) \/
        exists e, r = Raise (Exception e))).
Proof.
  unfold submit_code. cbv zeta. repeat wp_step code_of_blind.
  all: cbn [app code_of]; eauto 6.
Qed.

Lemma attempt_2fa_outcomes page secret attempt :
  wp code_of (attempt_2fa page secret attempt)
    (fun xs r =>
       (length xs <= 1)%nat /\
       (r = Ret None \/ r = Ret (Some false) \/
        (r = Ret (Some true) /\
         left_two_factor (url_after_submit page attempt) = true /\
         exists code, totp_now page secret attempt = inl code))).
Proof.
  unfold attempt_2fa.
  apply wp_bind, (wp_log_step _ code_of_blind).
  destruct (totp_now page secret attempt) as [code|e] eqn:Hgen.
  - apply wp_bind, wp_emit. apply wp_bind, (wp_log_step _ code_of_blind).
    destruct (find_input _ _) as [selector|].
    + apply wp_bind, (wp_log_step _ code_of_blind). apply wp_catch.
      eapply wp_mono; [apply submit_code_outcomes|].
      cbn beta. intros xs r [-> [-> | [[-> Hleft] | [e ->]]]]; cbn beta iota.
      * cbn. auto.
      * cbn. split; [lia|]. right. right. eauto.
      * repeat wp_step code_of_blind; cbn; auto.
    + repeat wp_step code_of_blind; cbn; auto.
  - repeat wp_step code_of_blind; cbn; auto.
Qed.

Lemma for_each_attempts_outcomes page secret idx :
  wp code_of (for_each idx (attempt_2fa page secret) retries_exhausted)
    (fun xs r =>
       (length xs <= length idx)%nat /\
       (r = Ret false \/
        (r = Ret true /\
         exists attempt code,
           In attempt idx /\
           left_two_factor (url_after_submit page attempt) = true /\
           totp_now page secret attempt = inl code))).
Proof.
  induction idx as [|i idx IH].
  - apply wp_for_each_nil. unfold retries_exhausted.
    repeat wp_step code_of_blind. cbn. auto.
  - apply wp_for_each_cons.
    eapply wp_mono; [apply attempt_2fa_outcomes|].
    cbn beta. intros xs r [Hlen [-> | [-> | [-> [Hleft [code Hcode]]]]]].
    + eapply wp_mono; [exact IH|]. cbn beta.
      intros ys r [Hlen' [-> | [-> [a [c [Hin H]]]]]].
      * rewrite length_app. cbn [length]. split; [lia | now left].
      * rewrite length_app. cbn [length]. split; [lia|].
        right. split; [reflexivity|]. exists a, c. split; [now right | exact H].
    + cbn [length]. split; [lia | now left].
    + cbn [length]. split; [lia|]. right. split; [reflexivity|].
      exists i, code. split; [now left | auto].
Qed.

Lemma handle_2fa_verification_outcomes page totp_secret :
  wp code_of (handle_2fa_verification page totp_secret)
    (fun xs r =>
       (length xs <= MAX_2FA_RETRIES)%nat /\
       (r = Ret false \/
        (r = Ret true /\
         exists secret attempt code,
           totp_secret = Some secret /\ secret <> "" /\
           (attempt < MAX_2FA_RETRIES)%nat /\
           left_two_factor (url_after_submit page attempt) = true /\
           totp_now page secret attempt = inl code))).
Proof.
  unfold handle_2fa_verification.
  apply wp_bind, wp_prelude_2fa; [exact code_of_blind|]. intros _.
  destruct totp_secret as [[|c s]|].
  1,3: unfold missing_secret; repeat wp_step code_of_blind; cbn; split; [lia | now left].
  eapply wp_mono; [apply for_each_attempts_outcomes|]. cbn beta.
  intros xs r [Hlen [-> | [-> [a [code [Hin H]]]]]].
  - rewrite length_seq in Hlen. cbn [app]. auto.
  - rewrite length_seq in Hlen. cbn [app]. split; [exact Hlen|]. right.
    split; [reflexivity|]. exists (String c s), a, code.
    apply in_seq in Hin. repeat split; try tauto; try discriminate; lia.
Qed.

(** X6: [handle_2fa_verification] always returns a boolean, whatever the
    page raises, and generates at most [MAX_2FA_RETRIES] codes. *)
Theorem two_factor_generates_at_most_three_codes page totp_secret :
  let r := handle_2fa_verification page totp_secret in
  (exists ok, returns r ok) /\
  (length (codes (fst r)) <= MAX_2FA_RETRIES)%nat.
Proof.
  cbv zeta. destruct (handle_2fa_verification_outcomes page totp_secret) as [Hlen Hr].
  split; [|exact Hlen]. unfold returns. destruct Hr as [-> | [-> _]]; eauto.
Qed.

(** X7: [handle_2fa_verification] returns True only if a non-empty secret
    is set and, in one of the attempts, a code was generated and the
    location read after its submission no longer matches the two-factor
    pattern. *)
Theorem two_factor_success_means_location_left page totp_secret :
  returns (handle_2fa_verification page totp_secret) true ->
  exists secret attempt code,
    totp_secret = Some secret /\ secret <> "" /\
    (attempt < MAX_2FA_RETRIES)%nat /\
    left_two_factor (url_after_submit page attempt) = true /\
    totp_now page secret attempt = inl code.
Proof.
  unfold returns. intros Hr.
  destruct (handle_2fa_verification_outcomes page totp_secret) as [_ [H | [_ H]]].
  - rewrite H in Hr. discriminate.
  - exact H.
Qed.

Lemma two_factor_success_means_location_left_witness :
  exists secret attempt code,
    Some "JBSWY3DPEHPK3PXP" = Some secret /\ secret <> "" /\
    (attempt < MAX_2FA_RETRIES)%nat /\
    left_two_factor (url_after_submit second_try_page attempt) = true /\
    totp_now second_try_page secret attempt = inl code.
Proof.
  apply (two_factor_success_means_location_left second_try_page (Some "JBSWY3DPEHPK3PXP")).
  vm_compute. reflexivity.
Defined.

(** X8: when generating the code raises in some attempt, after earlier
    attempts whose codes were rejected, [handle_2fa_verification] returns
    False in that attempt: the attempts left are not made, and the codes
    generated are those of the earlier attempts. *)
Theorem generation_failure_ends_protocol page secret attempt e :
  (attempt < MAX_2FA_RETRIES)%nat ->
  secret <> "" ->
  (forall a, (a < attempt)%nat -> exists code, totp_now page secret a = inl code) ->
  (forall a, (a < attempt)%nat -> left_two_factor (url_after_submit page a) = false) ->
  totp_now page secret attempt = inr e ->
  let r := handle_2fa_verification page (Some secret) in
  returns r false /\
  length (codes (fst r)) = attempt /\
  fst r = fst (prelude_2fa page) ++
          flat_map (fun a => fst (attempt_2fa page secret a)) (seq 0 (attempt + 1)).
Proof.
  intros Hn Hsecret Hgen Hstay Hfail. cbv zeta.
  rewrite (handle_2fa_with_secret page secret Hsecret).
  assert (seq 0 MAX_2FA_RETRIES =
          seq 0 attempt ++ attempt :: seq (S attempt) (MAX_2FA_RETRIES - S attempt))
    as Hseq.
  { replace MAX_2FA_RETRIES with (attempt + S (MAX_2FA_RETRIES - S attempt))%nat at 1
      by lia.
    now rewrite seq_app. }
  pose proof (attempt_2fa_undecodable page secret attempt e Hfail) as [Hcodes Hret].
  assert (forall a, In a (seq 0 attempt) ->
            snd (attempt_2fa page secret a) = Ret None /\
            length (codes (fst (attempt_2fa page secret a))) = 1%nat) as Hbefore.
  { intros a Ha. apply in_seq in Ha.
    destruct (Hgen a) as [c Hc]; [lia|].
    destruct (attempt_2fa_rejected page secret a c Hc (Hstay a ltac:(lia))) as [Hx Hr].
    fold codes in Hx. rewrite Hx. split; [|reflexivity].
    destruct Hr as [Hr | [Ha2 _]]; [exact Hr|]. unfold MAX_2FA_RETRIES in Hn. lia. }
  rewrite Hseq, (for_each_stops _ _ _ _ _ false); [| intros; now apply Hbefore | exact Hret].
  destruct (prelude_2fa_returns page) as [b Hb].
  unfold returns. rewrite snd_bind, fst_bind, Hb. cbn [fst snd].
  replace (seq 0 (attempt + 1)) with (seq 0 attempt ++ [attempt]) by (now rewrite seq_app).
  repeat split.
  unfold codes. rewrite observed_app, observed_flat_map. fold codes.
  rewrite prelude_2fa_codes. cbn [app]. rewrite flat_map_app, length_app.
  cbn [flat_map]. fold codes. unfold codes at 2. rewrite Hcodes. cbn [app length].
  rewrite length_flat_map_singletons; [rewrite length_seq; lia|].
  intros a Ha. now apply Hbefore.
Qed.

Lemma generation_failure_ends_protocol_witness :
  let r := handle_2fa_verification generator_breaks_page (Some "JBSWY3DPEHPK3PXP") in
  returns r false /\ length (codes (fst r)) = 1%nat.
Proof.
  cbv zeta.
  assert (1 < MAX_2FA_RETRIES)%nat as Hn by (unfold MAX_2FA_RETRIES; repeat constructor).
  assert ("JBSWY3DPEHPK3PXP" <> "") as Hsecret by discriminate.
  assert (forall a, (a < 1)%nat ->
            exists code, totp_now generator_breaks_page "JBSWY3DPEHPK3PXP" a = inl code)
    as Hgen.
  { intros a Ha. assert (a = 0%nat) as -> by lia. eexists. reflexivity. }
  assert (forall a, (a < 1)%nat ->
            left_two_factor (url_after_submit generator_breaks_page a) = false) as Hstay
    by (intros a _; reflexivity).
  pose proof (generation_failure_ends_protocol generator_breaks_page "JBSWY3DPEHPK3PXP" 1
                (OtherError "Incorrect padding") Hn Hsecret Hgen Hstay eq_refl) as H.
  cbv zeta in H. split; [exact (proj1 H) | exact (proj1 (proj2 H))].
Defined.

(** ** How long a failed attempt sleeps *)

Lemma submit_code_rejected_run page attempt selector code :
  reaches_check page attempt ->
  left_two_factor (url_after_submit page attempt) = false ->
  wp sleep_of (submit_code page attempt selector code)
    (fun xs r =>
       xs = [1 # 2; 1 # 2; seconds WAIT_AFTER_2FA]%Q ++
            (if (attempt <? MAX_2FA_RETRIES - 1)%nat
             then [sleep_until_next_window (time_time page attempt)]
             else []) /\
       r = Ret None).
Proof.
  intros (_ & Hclear & Hfill & Hsubmit & Hload) Hurl.
  unfold submit_code. cbv zeta. rewrite Hurl, Hclear, Hfill.
  repeat wp_step sleep_of_blind.
  all: cbn [app sleep_of]; try discriminate; auto.
  all: try (exfalso; eapply Hload; eassumption).
  all: destruct Hsubmit; congruence.
Qed.

(** X9: an attempt whose code is rejected sleeps half a second twice and
    the settle time, and then the time to the next code window unless it
    is the last attempt; an attempt that finds no input field sleeps three
    seconds and nothing else. *)
Theorem failed_attempt_sleeps page secret attempt code :
  totp_now page secret attempt = inl code ->
  left_two_factor (url_after_submit page attempt) = false ->
  (reaches_check page attempt ->
   slept (fst (attempt_2fa page secret attempt)) =
   [1 # 2; 1 # 2; seconds WAIT_AFTER_2FA]%Q ++
   if (attempt <? MAX_2FA_RETRIES - 1)%nat
   then [sleep_until_next_window (time_time page attempt)]
   else []) /\
  (find_input (input_visible page attempt) input_selectors = None ->
   slept (fst (attempt_2fa page secret attempt)) = [3%Q]).
Proof.
  intros Hgen Hurl. split.
  - intros Hreach.
    enough (wp sleep_of (attempt_2fa page secret attempt)
              (fun xs _ =>
                 xs = [1 # 2; 1 # 2; seconds WAIT_AFTER_2FA]%Q ++
                      if (attempt <? MAX_2FA_RETRIES - 1)%nat
                      then [sleep_until_next_window (time_time page attempt)]
                      else [])) as H by exact H.
    unfold attempt_2fa. rewrite Hgen.
    apply wp_bind, (wp_log_step _ sleep_of_blind).
    apply wp_bind, wp_emit. apply wp_bind, (wp_log_step _ sleep_of_blind).
    destruct (find_input _ _) as [selector|] eqn:Hfind.
    + apply wp_bind, (wp_log_step _ sleep_of_blind). apply wp_catch.
      eapply wp_mono; [apply submit_code_rejected_run; assumption|].
      cbn beta. intros xs r [-> ->]. reflexivity.
    + destruct Hreach as [Hinput _]. contradiction.
  - intros Hnone.
    enough (wp sleep_of (attempt_2fa page secret attempt) (fun xs _ => xs = [3%Q]))
      as H by exact H.
    unfold attempt_2fa. rewrite Hgen, Hnone.
    repeat wp_step sleep_of_blind; reflexivity.
Qed.

Lemma failed_attempt_sleeps_witness :
  slept (fst (attempt_2fa rejecting_page "JBSWY3DPEHPK3PXP" 0)) = [1 # 2; 1 # 2; 5; 5]%Q.
Proof.
  assert (reaches_check rejecting_page 0) as Hreach.
  { unfold reaches_check. split; [vm_compute; discriminate|].
    split; [reflexivity|]. split; [reflexivity|].
    split; [right; reflexivity | intros msg; discriminate]. }
  exact (proj1 (failed_attempt_sleeps rejecting_page "JBSWY3DPEHPK3PXP" 0 "000000"
                  eq_refl eq_refl) Hreach).
Defined.

(** ** Steps 4 and 9 of [run_login] *)

(** X10: step 4 of [run_login] goes on when one of the provider buttons was
    clicked, or when none was and the location, in lower case, does not
    contain [signin]; otherwise it exits with status 1. *)
Theorem provider_button_step_outcome (w : World) :
  snd (step4_github_button w) =
  if existsb (fun selector => is_clicked (github_button w selector))
       github_button_selectors
     || negb (Py.str_in "signin" (Py.lower (url_no_button w)))
  then Ret tt
  else Raise (SystemExit 1).
Proof.
  destruct (existsb _ github_button_selectors) eqn:Hbutton.
  - unfold step4_github_button. rewrite !snd_bind. cbn [snd log_step emit].
    now rewrite try_click_returns, Hbutton.
  - destruct (Py.str_in "signin" (Py.lower (url_no_button w))) eqn:Hsignin.
    + now apply step4_github_button_fatal.
    + unfold step4_github_button. rewrite !snd_bind. cbn [snd log_step emit].
      now rewrite try_click_returns, Hbutton, Hsignin.
Qed.

Lemma handle_oauth_authorization_result page :
  snd (handle_oauth_authorization page) =
  Ret (existsb (fun selector => is_clicked (authorize page selector)) authorize_selectors).
Proof.
  enough (wp mute (handle_oauth_authorization page)
            (fun _ r => r = Ret (existsb (fun selector => is_clicked (authorize page selector))
                                   authorize_selectors))) as H by exact H.
  unfold handle_oauth_authorization. repeat wp_step mute_blind.
  all: congruence.
Qed.

(** X11: step 9 of [run_login] never exits: whether or not an authorize
    button is found, it goes on when its sleeps are not interrupted and
    its wait for the network does not raise. *)
Theorem authorize_step_is_never_fatal (w : World) (current_url : string) :
  (forall code, snd (step9_oauth w current_url) <> Raise (SystemExit code)) /\
  (sleep_interrupted w 3 = false ->
   sleep_interrupted w 4 = false ->
   load_outcome w 3 = Done ->
   returns (step9_oauth w current_url) tt).
Proof.
  split.
  - enough (wp mute (step9_oauth w current_url)
              (fun _ r => forall code, r <> Raise (SystemExit code))) as H by exact H.
    unfold step9_oauth. repeat run_step. all: intros code'; discriminate.
  - intros H3 H4 Hload. unfold returns, step9_oauth, time_sleep, wait_for_load_state.
    rewrite H3, H4, Hload. rewrite snd_bind. cbn [snd sleep emit].
    destruct (Py.str_in _ current_url); [|reflexivity].
    rewrite snd_bind, handle_oauth_authorization_result. reflexivity.
Qed.

Lemma authorize_step_is_never_fatal_witness :
  returns (step9_oauth unconfirmed_world "https://github.com/login/oauth/authorize?x") tt.
Proof.
  exact (proj2 (authorize_step_is_never_fatal unconfirmed_world
                  "https://github.com/login/oauth/authorize?x") eq_refl eq_refl eq_refl).
Defined.

(** ** Outcomes of a run *)

Lemma login_flow_outcomes w username password totp_secret :
  wp mute (login_flow w username password totp_secret)
    (fun _ r =>
       match r with
       | Ret _ => returns (verify_login_success (final_page w)) true
       | Raise (SystemExit code) => code = 1%Z
       | Raise _ => True
       end).
Proof.
  unfold login_flow, reach_github, step3_visit, step4_github_button, step5_wait_github,
    step6_github_login, step7_device, step8_two_factor, step9_oauth, step10_final_wait,
    step11_verify.
  repeat run_step.
  all: try exact I; try reflexivity.
  all: unfold returns; rewrite verify_login_success_returns; now f_equal.
Qed.

(** X12: a run ends in one of three ways: it returns, it exits with status
    1, or it exits with status 130.  It returns only if both credentials
    were set and [verify_login_success] declared success on the final
    page. *)
Theorem run_login_outcomes (env : Environ) (w : World) :
  let r := snd (run_login env w) in
  (r = Ret tt \/ r = Raise (SystemExit 1) \/ r = Raise (SystemExit 130)) /\
  (r = Ret tt ->
   (exists username password, credentials_given env username password) /\
   returns (verify_login_success (final_page w)) true).
Proof.
  cbv zeta. rewrite snd_run_login.
  destruct (GH_USERNAME env) as [[|c u]|] eqn:Hu;
    try (split; [auto | discriminate]).
  destruct (GH_PASSWORD env) as [[|c' p]|] eqn:Hp;
    try (split; [auto | discriminate]).
  rewrite snd_with_handlers.
  pose proof (login_flow_outcomes w (String c u) (String c' p) (GH_2FA_SECRET env)) as H.
  unfold wp in H.
  destruct (snd (login_flow _ _ _ _)) as [[]|[e| |code]].
  - split; [auto|]. intros _. split; [|exact H].
    exists (String c u), (String c' p).
    unfold credentials_given. repeat split; (assumption || discriminate).
  - split; [auto | discriminate].
  - split; [auto | discriminate].
  - subst code. split; [auto | discriminate].
Qed.

Lemma run_login_outcomes_witness :
  (exists username password, credentials_given some_credentials username password) /\
  returns (verify_login_success (final_page confirmed_world)) true.
Proof.
  apply (proj2 (run_login_outcomes some_credentials confirmed_world)).
  vm_compute. reflexivity.
Defined.

(** ** What the credential form is made to do *)

Lemma existsb_find {A} (f : A -> bool) (l : list A) :
  existsb f l = match find f l with Some _ => true | None => false end.
Proof.
  induction l as [|a l IH]; [reflexivity|].
  cbn [existsb find]. destruct (f a); [reflexivity | exact IH].
Qed.

Section QuietRules.

Context {X : Type} (view : event -> list X).

Hypothesis view_stdout : forall line, view (Stdout line) = [].

Lemma wp_log_step_quiet msg l (K : list X -> result unit -> Prop) :
  K [] (Ret tt) -> wp view (log_step msg l) K.
Proof. intros H. apply wp_emit. now rewrite view_stdout. Qed.

Lemma wp_scan_errors_quiet page selectors (K : list X -> result unit -> Prop) :
  K [] (Ret tt) -> wp view (scan_errors page selectors) K.
Proof.
  intros H. induction selectors as [|s rest IH]; cbn [scan_errors].
  - now apply wp_ret.
  - destruct (page s); auto using wp_log_step_quiet, wp_ret.
Qed.

(** [try_click] shows its one click, on the first clickable selector. *)
Lemma wp_try_click_first page selectors description
  (K : list X -> result bool -> Prop) :
  K (match find (fun selector => is_clicked (page selector)) selectors with
     | Some selector => view (Click selector)
     | None => []
     end)
    (Ret (existsb (fun selector => is_clicked (page selector)) selectors)) ->
  wp view (try_click page selectors description) K.
Proof.
  intros H. induction selectors as [|s rest IH]; cbn [try_click].
  - apply wp_bind, wp_log_step_quiet, wp_ret. exact H.
  - cbn [find existsb] in H. destruct (page s); cbn [is_clicked orb] in H; auto.
    apply wp_bind, wp_emit. apply wp_bind, wp_log_step_quiet, wp_ret.
    cbn [app]. now rewrite !app_nil_r.
Qed.

Lemma wp_click_submit_first page selectors (K : list X -> result bool -> Prop) :
  K (match find (fun selector => is_clicked (page selector)) selectors with
     | Some selector => view (Click selector)
     | None => []
     end)
    (Ret (existsb (fun selector => is_clicked (page selector)) selectors)) ->
  wp view (click_submit page selectors) K.
Proof.
  intros H. induction selectors as [|s rest IH]; cbn [click_submit].
  - apply wp_ret. exact H.
  - cbn [find existsb] in H. destruct (page s); cbn [is_clicked orb] in H; auto.
    apply wp_bind, wp_emit. apply wp_bind, wp_log_step_quiet, wp_ret.
    cbn [app]. now rewrite !app_nil_r.
Qed.

Hypothesis view_screenshot : forall path, view (Screenshot path) = [].

Lemma wp_safe_screenshot_quiet shot filename description
  (K : list X -> result bool -> Prop) :
  (forall b, K [] (Ret b)) -> wp view (safe_screenshot shot filename description) K.
Proof.
  intros H. unfold safe_screenshot. destruct shot.
  - apply wp_bind, wp_log_step_quiet, wp_ret, H.
  - apply wp_bind, wp_emit. rewrite view_screenshot.
    apply wp_bind, wp_log_step_quiet. apply wp_bind.
    destruct (String.eqb description "");
      [apply wp_ret | apply wp_log_step_quiet]; apply wp_ret, H.
Qed.

End QuietRules.

(** One step of symbolic execution under a view that sees neither
    printing nor screenshots. *)
Ltac quiet_step Hout Hshot :=
  lazymatch goal with
  | |- wp _ (bind _ _) _ => apply wp_bind
  | |- wp _ (ret _) _ => apply wp_ret
  | |- wp _ (raise _) _ => apply wp_raise
  | |- wp _ (log_step _ _) _ => apply (wp_log_step_quiet _ Hout)
  | |- wp _ (safe_screenshot _ _ _) _ =>
      apply (wp_safe_screenshot_quiet _ Hout Hshot); intros ?
  | |- wp _ (scan_errors _ _) _ => apply (wp_scan_errors_quiet _ Hout)
  | |- wp _ (try_click _ _ _) _ => apply (wp_try_click_first _ Hout)
  | |- wp _ (click_submit _ _) _ => apply (wp_click_submit_first _ Hout)
  | |- wp _ (sleep _) _ => apply wp_emit
  | |- wp _ (emit _) _ => apply wp_emit
  | |- wp _ (may_raise _) _ => apply wp_may_raise; [intros ? | intros ? ?]
  | |- wp _ (try_except_timeout _ _) _ => apply wp_catch
  | |- wp _ (try_except _ _) _ => apply wp_catch
  | |- wp _ (if ?b then _ else _) _ => destruct b eqn:?
  | |- context [match ?e with PlaywrightTimeout _ => _ | OtherError _ => _ end] =>
      destruct e
  end; cbn beta iota zeta.

Lemma actions_stdout : forall line, actions (Stdout line) = [].
Proof. reflexivity. Qed.

Lemma actions_screenshot : forall path, actions (Screenshot path) = [].
Proof. reflexivity. Qed.

(** X13: [fill_github_credentials] returns True exactly when the username
    field shows up, the four fills work and a submit selector takes the
    click; it then has cleared and filled the username field, cleared and
    filled the password field, and clicked the first clickable submit
    selector, in this order and nothing more.  When it returns False it
    has done a prefix of the four fills and clicked nothing. *)
Theorem credential_form_is_filled_then_submitted page username password :
  let r := fill_github_credentials page username password in
  returns r (credentials_accepted page) /\
  if credentials_accepted page
  then exists selector,
         find (fun selector => is_clicked (cred_submit page selector))
           credential_submit_selectors = Some selector /\
         observed actions (fst r) =
         credential_fills username password ++ [Click selector]
  else exists k, observed actions (fst r) = firstn k (credential_fills username password).
Proof.
  cbv zeta. split; [apply fill_github_credentials_returns|].
  enough (wp actions (fill_github_credentials page username password)
            (fun xs _ =>
               if credentials_accepted page
               then exists selector,
                      find (fun selector => is_clicked (cred_submit page selector))
                        credential_submit_selectors = Some selector /\
                      xs = credential_fills username password ++ [Click selector]
               else exists k, xs = firstn k (credential_fills username password)))
    as H by exact H.
  unfold fill_github_credentials, page_fill.
  repeat quiet_step actions_stdout actions_screenshot.
  all: unfold credentials_accepted; cbn [forallb seq];
    repeat match goal with
           | H : _ = None |- _ => rewrite H
           | H : _ = Some _ |- _ => rewrite H
           | H : existsb _ _ = _ |- _ => rewrite H
           end;
    cbn [no_error andb].
  all: try (exists 0%nat; reflexivity).
  all: try (exists 1%nat; reflexivity).
  all: try (exists 2%nat; reflexivity).
  all: try (exists 3%nat; reflexivity).
  all: match goal with H : existsb _ _ = _ |- _ => rewrite existsb_find in H end;
    destruct (find _ credential_submit_selectors) as [selector|]; try discriminate.
  - exists selector. split; reflexivity.
  - exists 4%nat. reflexivity.
Qed.

(** ** What the output does not show *)

Lemma same_refl {A} (m : M A) : same_but_typed m m.
Proof. now split. Qed.

Lemma same_bind {A B} (m m' : M A) (f f' : A -> M B) :
  same_but_typed m m' -> (forall a, same_but_typed (f a) (f' a)) ->
  same_but_typed (bind m f) (bind m' f').
Proof.
  unfold same_but_typed. rewrite !fst_bind, !snd_bind, !map_app.
  intros [Ht Hr] Hf. rewrite Ht, Hr. destruct (snd m') as [a|e]; [|now split].
  destruct (Hf a) as [Ht' Hr']. now rewrite Ht', Hr'.
Qed.

Lemma same_catch {A} (m m' : M A) handler :
  same_but_typed m m' -> same_but_typed (catch m handler) (catch m' handler).
Proof.
  unfold same_but_typed. rewrite !fst_catch, !snd_catch, !map_app.
  intros [Ht Hr]. now rewrite Ht, Hr.
Qed.

Lemma same_try_finally {A} (m m' : M A) fin :
  same_but_typed m m' -> same_but_typed (try_finally m fin) (try_finally m' fin).
Proof.
  unfold same_but_typed. rewrite !fst_try_finally, !snd_try_finally, !map_app.
  intros [Ht Hr]. now rewrite Ht, Hr.
Qed.

Lemma same_fill page k selector text text' :
  same_but_typed (page_fill page k selector text) (page_fill page k selector text').
Proof.
  unfold page_fill. apply same_bind; [apply same_refl | intros _]. now split.
Qed.

Lemma same_credential_form page username password username' password' :
  Py.take 3 username = Py.take 3 username' ->
  same_but_typed (fill_github_credentials page username password)
    (fill_github_credentials page username' password').
Proof.
  intros Htake. unfold fill_github_credentials. rewrite Htake.
  apply same_bind; [apply same_refl | intros _].
  apply same_catch.
  apply same_bind; [apply same_refl | intros _].
  apply same_bind; [apply same_refl | intros _].
  apply same_bind; [apply same_fill | intros _].
  apply same_bind; [apply same_refl | intros _].
  apply same_bind; [apply same_refl | intros _].
  apply same_bind; [apply same_fill | intros _].
  apply same_refl.
Qed.

Lemma same_login_flow w username password username' password' totp_secret :
  Py.take 3 username = Py.take 3 username' ->
  same_but_typed (login_flow w username password totp_secret)
    (login_flow w username' password' totp_secret).
Proof.
  intros Htake. unfold login_flow.
  apply same_bind; [apply same_refl | intros url5].
  apply same_bind; [|intros; apply same_refl].
  unfold step6_github_login. destruct (on_login_form url5); [|apply same_refl].
  apply same_bind; [now apply same_credential_form | intros; apply same_refl].
Qed.

Lemma stdout_map_mask (trace : list event) : stdout (map mask trace) = stdout trace.
Proof.
  unfold stdout, observed. induction trace as [|e t IH]; [reflexivity|].
  cbn [map flat_map]. rewrite IH. now destruct e.
Qed.

(** X14: two runs that get the same answers from the browser, exception
    messages included, whose usernames agree on their first three
    characters and whose two-factor secrets agree, print the same lines,
    do the same but for the text typed into the credential fields, and
    end the same: of the credentials, the script itself prints only the
    first three characters of the username. *)
Theorem printed_lines_ignore_typed_credentials env env' w
  username password username' password' :
  credentials_given env username password ->
  credentials_given env' username' password' ->
  Py.take 3 username = Py.take 3 username' ->
  GH_2FA_SECRET env = GH_2FA_SECRET env' ->
  map mask (fst (run_login env w)) = map mask (fst (run_login env' w)) /\
  stdout (fst (run_login env w)) = stdout (fst (run_login env' w)) /\
  snd (run_login env w) = snd (run_login env' w).
Proof.
  intros (Hu & Hune & Hp & Hpne) (Hu' & Hune' & Hp' & Hpne') Htake Hsecret.
  assert (same_but_typed (run_login env w) (run_login env' w)) as [Ht Hr].
  { unfold run_login, config_check. rewrite Hu, Hp, Hu', Hp', <- Hsecret.
    destruct username as [|c u]; [contradiction|].
    destruct password as [|d p]; [contradiction|].
    destruct username' as [|c' u']; [contradiction|].
    destruct password' as [|d' p']; [contradiction|].
    rewrite Htake. cbn [Py.truthy].
    apply same_bind; [apply same_refl | intros _].
    apply same_bind; [apply same_refl | intros _].
    do 5 (apply same_bind; [apply same_refl | intros _]).
    apply same_try_finally. unfold with_handlers. apply same_catch.
    now apply same_login_flow. }
  repeat split; try assumption.
  rewrite <- (stdout_map_mask (fst (run_login env w))), Ht. apply stdout_map_mask.
Qed.

Lemma printed_lines_ignore_typed_credentials_witness :
  stdout (fst (run_login some_credentials stuck_at_login)) =
  stdout (fst (run_login other_credentials stuck_at_login)).
Proof.
  assert (credentials_given some_credentials "octocat" "hunter2") as H1
    by (repeat split; (reflexivity || discriminate)).
  assert (credentials_given other_credentials "octopus" "correct horse battery staple")
    as H2 by (repeat split; (reflexivity || discriminate)).
  exact (proj1 (proj2 (printed_lines_ignore_typed_credentials
                         some_credentials other_credentials stuck_at_login
                         _ _ _ _ H1 H2 eq_refl eq_refl))).
Defined.

(** ** One submission per attempt *)

Lemma submissions_stdout : forall line, submissions (Stdout line) = [].
Proof. reflexivity. Qed.

Lemma submissions_screenshot : forall path, submissions (Screenshot path) = [].
Proof. reflexivity. Qed.

(** X15: an attempt that gets as far as its check of the location submits
    the code exactly once: by a click on the first clickable submit
    selector, or, when none can be clicked, by pressing Enter on the input
    field, never both. *)
Theorem code_submitted_exactly_once page attempt selector code :
  reaches_check page attempt ->
  observed submissions (fst (submit_code page attempt selector code)) =
  match find (fun s => is_clicked (tf_submit page attempt s)) submit_selectors with
  | Some s => [Click s]
  | None => [Press selector "Enter"]
  end.
Proof.
  intros (_ & Hclear & Hfill & Hsubmit & Hload).
  enough (wp submissions (submit_code page attempt selector code)
            (fun xs _ =>
               xs = match find (fun s => is_clicked (tf_submit page attempt s))
                            submit_selectors with
                    | Some s => [Click s]
                    | None => [Press selector "Enter"]
                    end)) as H by exact H.
  unfold submit_code. cbv zeta. rewrite Hclear, Hfill.
  repeat quiet_step submissions_stdout submissions_screenshot.
  all: try (exfalso; eapply Hload; eassumption).
  all: rewrite ?existsb_find in *.
  all: destruct (find _ submit_selectors) as [s|]; try discriminate;
    cbn [app submissions]; try reflexivity.
  all: destruct Hsubmit; congruence.
Qed.

Lemma code_submitted_exactly_once_witness :
  observed submissions (fst (submit_code rejecting_page 0 "#otp" "000000")) =
  [Press "#otp" "Enter"].
Proof.
  assert (reaches_check rejecting_page 0) as Hreach.
  { unfold reaches_check. split; [vm_compute; discriminate|].
    split; [reflexivity|]. split; [reflexivity|].
    split; [right; reflexivity | intros msg; discriminate]. }
  exact (code_submitted_exactly_once rejecting_page 0 "#otp" "000000" Hreach).
Defined.

(** ** Screenshots never change the run *)

Lemma alike_refl {A} (m : M A) : alike m m.
Proof. now split. Qed.

Lemma alike_bind {A B} (m m' : M A) (f f' : A -> M B) :
  alike m m' -> (forall a, alike (f a) (f' a)) -> alike (bind m f) (bind m' f').
Proof.
  unfold alike. rewrite !fst_bind, !snd_bind, !observed_app.
  intros [Ht Hr] Hf. rewrite Ht, Hr. destruct (snd m') as [a|e]; [|now split].
  destruct (Hf a) as [Ht' Hr']. now rewrite Ht', Hr'.
Qed.

(** Two computations that return, whatever they return, can be followed
    by like continuations. *)
Lemma alike_seq {A B} (m m' : M A) (k k' : M B) :
  observed deeds (fst m) = observed deeds (fst m') ->
  (exists a, snd m = Ret a) -> (exists a', snd m' = Ret a') ->
  alike k k' -> alike (m ;; k) (m' ;; k').
Proof.
  unfold alike. rewrite !fst_bind, !snd_bind, !observed_app.
  intros Ht [a Ha] [a' Ha'] [Hk Hr]. rewrite Ht, Ha, Ha'. now rewrite Hk, Hr.
Qed.

Lemma deeds_stdout : forall line, deeds (Stdout line) = [].
Proof. reflexivity. Qed.

Lemma deeds_screenshot : forall path, deeds (Screenshot path) = [].
Proof. reflexivity. Qed.

Lemma safe_screenshot_deeds shot filename description :
  observed deeds (fst (safe_screenshot shot filename description)) = [] /\
  exists b, snd (safe_screenshot shot filename description) = Ret b.
Proof.
  enough (wp deeds (safe_screenshot shot filename description)
            (fun xs r => xs = [] /\ exists b, r = Ret b)) as H by exact H.
  apply (wp_safe_screenshot_quiet _ deeds_stdout deeds_screenshot). eauto.
Qed.

Lemma alike_after_shot {B} shot shot' filename description (k k' : M B) :
  alike k k' ->
  alike (safe_screenshot shot filename description ;; k)
        (safe_screenshot shot' filename description ;; k').
Proof.
  intros Hk.
  destruct (safe_screenshot_deeds shot filename description) as [Ht Hr].
  destruct (safe_screenshot_deeds shot' filename description) as [Ht' Hr'].
  apply alike_seq; try assumption. now rewrite Ht, Ht'.
Qed.

Lemma alike_catch {A} (m m' : M A) handler handler' :
  alike m m' ->
  (forall e, match handler e, handler' e with
             | Some k, Some k' => alike k k'
             | None, None => True
             | _, _ => False
             end) ->
  alike (catch m handler) (catch m' handler').
Proof.
  unfold alike, catch. destruct m as [t r], m' as [t' r']. cbn [fst snd].
  intros [Ht Hr] Hh. subst r'. destruct r as [a|e]; [now split|].
  specialize (Hh e). destruct (handler e) as [[u s]|], (handler' e) as [[u' s']|];
    try contradiction; cbn [fst snd] in *; [|now split].
  destruct Hh as [Hu Hs]. now rewrite !observed_app, Ht, Hu, Hs.
Qed.

Lemma alike_try_except {A} (m m' : M A) handler handler' :
  alike m m' -> (forall e, alike (handler e) (handler' e)) ->
  alike (try_except m handler) (try_except m' handler').
Proof.
  intros Hm Hh. apply alike_catch; [exact Hm|]. intros [e| |code]; auto.
Qed.

Lemma alike_try_finally {A} (m m' : M A) fin :
  alike m m' -> alike (try_finally m fin) (try_finally m' fin).
Proof.
  unfold alike. rewrite !fst_try_finally, !snd_try_finally, !observed_app.
  intros [Ht Hr]. now rewrite Ht, Hr.
Qed.

Lemma alike_for_each {I A} (idx : list I) (body body' : I -> M (option A)) after after' :
  (forall i, alike (body i) (body' i)) -> alike after after' ->
  alike (for_each idx body after) (for_each idx body' after').
Proof.
  intros Hbody Hafter. induction idx as [|i rest IH]; cbn [for_each]; [exact Hafter|].
  apply alike_bind; [apply Hbody|]. intros [v|]; [apply alike_refl | exact IH].
Qed.

(** One step of the run with another camera beside the run itself. *)
Ltac alike_step :=
  first
    [ apply alike_refl
    | apply alike_after_shot
    | apply alike_bind; [apply alike_refl | intros ?]
    | apply alike_bind; [ | intros ?]
    | apply alike_try_except; [ | intros ?]
    | apply alike_for_each; [intros ? | ]
    | match goal with
      | |- alike (if ?b then _ else _) (if ?b then _ else _) => destruct b
      | |- alike (match ?x with _ => _ end) (match ?x with _ => _ end) => destruct x
      end ].

Lemma alike_fill_github_credentials c w username password :
  alike (fill_github_credentials (credentials_page (with_camera c w)) username password)
        (fill_github_credentials (credentials_page w) username password).
Proof.
  unfold fill_github_credentials, page_fill.
  cbn [with_camera credentials_page wait_login_field fill_raises cred_screenshot cred_submit].
  repeat alike_step.
Qed.

Lemma alike_handle_device_verification c w :
  alike (handle_device_verification (device_page (with_camera c w)))
        (handle_device_verification (device_page w)).
Proof.
  unfold handle_device_verification, poll_device.
  cbn [with_camera device_page dv_screenshot url_at_second evaluate_raises].
  repeat alike_step.
Qed.

Lemma alike_handle_oauth_authorization c w :
  alike (handle_oauth_authorization (oauth_page (with_camera c w)))
        (handle_oauth_authorization (oauth_page w)).
Proof.
  unfold handle_oauth_authorization.
  cbn [with_camera oauth_page oa_screenshot authorize].
  repeat alike_step.
Qed.

Ltac two_factor_fields :=
  cbn [with_camera two_factor_page tf_screenshot totp_now input_visible clear_raises
       code_fill_raises tf_submit press_raises tf_load_state url_after_submit
       error_banner time_time].

Lemma alike_submit_code c w attempt selector code :
  alike (submit_code (two_factor_page (with_camera c w)) attempt selector code)
        (submit_code (two_factor_page w) attempt selector code).
Proof.
  unfold submit_code. two_factor_fields. cbv zeta.
  repeat alike_step.
Qed.

Lemma alike_attempt_2fa c w secret attempt :
  alike (attempt_2fa (two_factor_page (with_camera c w)) secret attempt)
        (attempt_2fa (two_factor_page w) secret attempt).
Proof.
  unfold attempt_2fa. two_factor_fields.
  apply alike_bind; [apply alike_refl | intros _].
  destruct (totp_now (two_factor_page w) secret attempt) as [code|e];
    [|apply alike_refl].
  do 2 (apply alike_bind; [apply alike_refl | intros _]).
  destruct (find_input _ input_selectors) as [used_selector|].
  - apply alike_bind; [apply alike_refl | intros _].
    apply alike_try_except; [apply alike_submit_code | intros e].
    repeat alike_step.
  - repeat alike_step.
Qed.

Lemma prelude_2fa_deeds page : observed deeds (fst (prelude_2fa page)) = [].
Proof.
  enough (wp deeds (prelude_2fa page) (fun xs _ => xs = [])) as H by exact H.
  unfold prelude_2fa. repeat quiet_step deeds_stdout deeds_screenshot. reflexivity.
Qed.

Lemma alike_handle_2fa_verification c w totp_secret :
  alike (handle_2fa_verification (two_factor_page (with_camera c w)) totp_secret)
        (handle_2fa_verification (two_factor_page w) totp_secret).
Proof.
  unfold handle_2fa_verification.
  apply alike_seq.
  - now rewrite !prelude_2fa_deeds.
  - apply prelude_2fa_returns.
  - apply prelude_2fa_returns.
  - destruct totp_secret as [[|ch secret]|]; try apply alike_refl.
    apply alike_for_each; [intros attempt; apply alike_attempt_2fa | apply alike_refl].
Qed.

Lemma alike_login_flow c w username password totp_secret :
  alike (login_flow (with_camera c w) username password totp_secret)
        (login_flow w username password totp_secret).
Proof.
  unfold login_flow.
  apply alike_bind.
  { unfold reach_github, step3_visit, step4_github_button, step5_wait_github,
      wait_for_load_state, time_sleep.
    cbn [with_camera goto_outcome load_outcome sleep_interrupted run_screenshot
         github_button url_no_button url_after_click].
    repeat alike_step. }
  intros url5. apply alike_bind.
  { unfold step6_github_login, wait_for_load_state, time_sleep.
    destruct (on_login_form url5); [|apply alike_refl].
    apply alike_bind; [apply alike_fill_github_credentials | intros ok].
    cbn [with_camera load_outcome sleep_interrupted url_after_login].
    apply alike_refl. }
  intros url6. apply alike_bind.
  { unfold step7_device. destruct (on_device_page url6); [|apply alike_refl].
    apply alike_bind; [apply alike_handle_device_verification | intros ok].
    cbn [with_camera url_after_device]. apply alike_refl. }
  intros url7. apply alike_bind.
  { unfold step8_two_factor. destruct (on_two_factor_page url7); [|apply alike_refl].
    apply alike_bind; [apply alike_handle_2fa_verification | intros ok].
    cbn [with_camera url_after_2fa run_screenshot]. repeat alike_step. }
  intros url8. apply alike_bind.
  { unfold step9_oauth, wait_for_load_state, time_sleep.
    cbn [with_camera load_outcome sleep_interrupted].
    apply alike_bind; [apply alike_refl | intros _].
    destruct (Py.str_in _ url8); [|apply alike_refl].
    apply alike_bind; [apply alike_handle_oauth_authorization | intros _].
    apply alike_refl. }
  intros _. apply alike_bind.
  { unfold step10_final_wait, wait_for_load_state, time_sleep.
    cbn [with_camera load_outcome sleep_interrupted]. apply alike_refl. }
  intros _. unfold step11_verify. cbn [with_camera run_screenshot final_page].
  repeat alike_step.
Qed.

(** X16: whether the screenshots of a run succeed or fail changes nothing
    but the lines printed and the files written: the run performs the
    same browser actions and sleeps and ends with the same result. *)
Theorem screenshots_never_change_the_run (env : Environ) (w : World) (c : Camera) :
  observed deeds (fst (run_login env (with_camera c w))) =
  observed deeds (fst (run_login env w)) /\
  snd (run_login env (with_camera c w)) = snd (run_login env w).
Proof.
  enough (alike (run_login env (with_camera c w)) (run_login env w)) as H by exact H.
  unfold run_login.
  do 2 (apply alike_bind; [apply alike_refl | intros _]).
  destruct (GH_USERNAME env) as [[|ch username]|]; try apply alike_refl.
  destruct (GH_PASSWORD env) as [[|ch' password]|]; try apply alike_refl.
  do 5 (apply alike_bind; [apply alike_refl | intros _]).
  apply alike_try_finally. unfold with_handlers.
  apply alike_catch; [apply alike_login_flow|].
  intros [e| |code]; [|apply alike_refl|exact I].
  cbn [with_camera run_screenshot]. repeat alike_step.
Qed.

(** ** The success heuristic when the page cannot be read *)

(** X17: when every element lookup on the final page raises,
    [verify_login_success] still returns, and declares success exactly
    when the final location contains [claw.cloud] and neither [signin] nor
    [github.com]. *)
Theorem failing_lookups_leave_the_url_to_decide (page : FinalPage) :
  (forall text, text_count page text = None) ->
  (forall selector, locator_count page selector = None) ->
  returns (verify_login_success page)
    (Py.str_in "claw.cloud" (final_url page) &&
     negb (Py.str_in "signin" (final_url page)) &&
     negb (Py.str_in "github.com" (final_url page))).
Proof.
  intros Htext Hmenu. unfold returns. rewrite verify_login_success_returns.
  unfold tally, signal_target_url, signal_left_provider, signal_landmark,
    signal_user_menu.
  assert (existsb (fun check => found (text_count page (fst check))) page_text_checks
          = false) as ->.
  { induction page_text_checks as [|check rest IH]; [reflexivity|].
    cbn [existsb]. now rewrite Htext, IH. }
  unfold user_menu_selectors. cbn [map first_match]. rewrite Hmenu.
  destruct (Py.str_in "claw.cloud" _), (Py.str_in "signin" _),
    (Py.str_in "github.com" _); reflexivity.
Qed.

Lemma failing_lookups_leave_the_url_to_decide_witness :
  returns (verify_login_success unreadable_console) true.
Proof.
  exact (failing_lookups_leave_the_url_to_decide unreadable_console
           (fun _ => eq_refl) (fun _ => eq_refl)).
Defined.
